(** * nbnak: Netbox inventory export, port normalisation

    A shallow embedding of [nbnak.py].  Decoded JSON documents are values of
    [json]; Python dictionaries with string keys are finite maps; exceptions
    are values of [exn] carried by [result]; every HTTP read goes through the
    [Py] monad, which threads the list of URLs requested so far. *)

From stdpp Require Import gmap strings list fin_maps pretty.
From Stdlib Require Import ZArith Ascii String.

Set Warnings "-register-all".
Open Scope Z_scope.
Open Scope string_scope.

(** ** Decoded JSON values

    What [requests.get(...).json()] returns.  JSON numbers are integers here:
    every number the program reads ([vid], [mtu], [id]) is one.  [JNull] is
    Python's [None]. *)
Inductive json : Type :=
| JNull
| JBool (b : bool)
| JInt (z : Z)
| JStr (s : string)
| JList (l : list json)
| JObj (m : gmap string json).

(** ** Exceptions *)

(** The exceptions the program can raise.  [AssertionError msg arg] stands for
    [AssertionError(msg)] when [arg] is [None] and for [AssertionError(msg, v)]
    when it is [Some v].  [RequestsError] is anything [requests.get] or the
    decoding of the body raises. *)
Inductive exn : Type :=
| AssertionError (msg : string) (arg : option json)
| KeyError (key : string)
| IndexError
| TypeError (msg : string)
| AttributeError (msg : string)
| ValueError (literal : string)
| NotImplementedError (msg : string)
| RequestsError (what : string).

Inductive result (A : Type) : Type :=
| Ok (a : A)
| Raise (e : exn).
Arguments Ok {A} a.
Arguments Raise {A} e.

#[global] Instance result_ret : MRet result := fun A a => Ok a.
#[global] Instance result_bind : MBind result := fun A B f c =>
  match c with
  | Ok a => f a
  | Raise e => Raise e
  end.

(** ** The outside world

    [http_get_json url headers] is [requests.get(url, headers=headers).json()]:
    the decoded body, or the exception the transport raised.  [str_container]
    is Python's [str] of a list or a dict, whose text depends on the
    interpreter's dictionary order; none of the properties below depends on
    it.  [int_text] is the interpreter's [int] on the text that Python
    versions do not treat alike (see [py_int]). *)
Record World : Type := {
  http_get_json : string → list (string * string) → result json;
  str_container : json → string;
  int_text : string → result Z
}.

(** Computations that may issue HTTP reads: the state is the list of URLs
    requested so far, oldest first; an exception keeps the list. *)
Definition Py (A : Type) : Type := list string → result A * list string.

#[global] Instance Py_ret : MRet Py := fun A a log => (Ok a, log).
#[global] Instance Py_bind : MBind Py := fun A B f c log =>
  match c log with
  | (Ok a, log') => f a log'
  | (Raise e, log') => (Raise e, log')
  end.

Definition lift {A : Type} (r : result A) : Py A := fun log => (r, log).

(** [try: body / except: handler]: the handler sees the exception, and the
    reads made before it was raised stay made. *)
Definition try_except {A : Type} (body : Py A) (handler : exn → Py A) : Py A :=
  fun log =>
    match body log with
    | (Ok a, log') => (Ok a, log')
    | (Raise e, log') => handler e log'
    end.

(** ** Python's view of JSON values *)

(** [bool(v)]: the truth value tested by [if v:]. *)
Definition truthy (v : json) : bool :=
  match v with
  | JNull => false
  | JBool b => b
  | JInt z => negb (Z.eqb z 0)
  | JStr s => negb (String.eqb s "")
  | JList l => match l with [] => false | _ => true end
  | JObj m => negb (bool_decide (m = ∅))
  end.

(** [v == s] for a string literal [s]. *)
Definition eq_str (v : json) (s : string) : bool :=
  match v with
  | JStr s' => String.eqb s' s
  | _ => false
  end.

(** [v == None]. *)
Definition eq_None (v : json) : bool :=
  match v with
  | JNull => true
  | _ => false
  end.

(** [v == False]: [False] equals itself and the number zero. *)
Definition eq_False (v : json) : bool :=
  match v with
  | JBool b => negb b
  | JInt z => Z.eqb z 0
  | _ => false
  end.

(** [not v]. *)
Definition py_not (v : json) : bool := negb (truthy v).

(** [v[k]] for a string key [k]. *)
Definition getitem (v : json) (k : string) : result json :=
  match v with
  | JObj m =>
      match m !! k with
      | Some x => Ok x
      | None => Raise (KeyError k)
      end
  | JNull => Raise (TypeError "'NoneType' object is not subscriptable")
  | JBool _ => Raise (TypeError "'bool' object is not subscriptable")
  | JInt _ => Raise (TypeError "'int' object is not subscriptable")
  | JStr _ => Raise (TypeError "string indices must be integers")
  | JList _ => Raise (TypeError "list indices must be integers or slices, not str")
  end.

(** [v[0]]. *)
Definition getitem0 (v : json) : result json :=
  match v with
  | JList (x :: _) => Ok x
  | JList [] => Raise IndexError
  | JStr (String a _) => Ok (JStr (String a ""))
  | JStr "" => Raise IndexError
  | JObj _ => Raise (KeyError "0")
  | JNull => Raise (TypeError "'NoneType' object is not subscriptable")
  | JBool _ => Raise (TypeError "'bool' object is not subscriptable")
  | JInt _ => Raise (TypeError "'int' object is not subscriptable")
  end.

Fixpoint chars (s : string) : list json :=
  match s with
  | "" => []
  | String a r => JStr (String a "") :: chars r
  end.

(** The elements [for x in v] runs over: a list's items, a string's
    characters, a dictionary's keys. *)
Definition iter (v : json) : result (list json) :=
  match v with
  | JList l => Ok l
  | JStr s => Ok (chars s)
  | JObj m => Ok (JStr <$> (map_to_list m).*1)
  | JNull => Raise (TypeError "'NoneType' object is not iterable")
  | JBool _ => Raise (TypeError "'bool' object is not iterable")
  | JInt _ => Raise (TypeError "'int' object is not iterable")
  end.

(** [str(v)], also what [%s] and [{0}] format with. *)
Definition py_str (w : World) (v : json) : string :=
  match v with
  | JNull => "None"
  | JBool true => "True"
  | JBool false => "False"
  | JInt z => pretty z
  | JStr s => s
  | JList _ | JObj _ => str_container w v
  end.

(** ** [int(s)] on text (base 10)

    Text is a string of bytes, the UTF-8 writing of a Python [str].  On
    plain text, where every Python 3 gives the same answer, the conversion
    is written out: white space (tab, line feed, vertical tab, form feed,
    carriage return, space) is dropped at both ends, one sign is accepted,
    and the rest must be a non-empty run of the digits 0 to 9.  Text is
    plain when it is ASCII, has no underscore and is at most 4300
    characters long.  On any other text the answer is the interpreter's,
    [int_text]: which characters beyond ASCII count as digits or as white
    space depends on its Unicode tables, an underscore between digits is
    accepted from Python 3.6 on, and a number of more than 4300 digits is
    refused from Python 3.11 on. *)
Definition is_space (a : ascii) : bool :=
  let n := N_of_ascii a in
  N.leb 9 n && N.leb n 13 || N.eqb n 32.

(** [lstrip] and [rstrip] drop that white space at the left and at the right
    end. *)

Fixpoint lstrip (s : string) : string :=
  match s with
  | String a r => if is_space a then lstrip r else s
  | "" => ""
  end.

Fixpoint rstrip (s : string) : string :=
  match s with
  | String a r =>
      match rstrip r with
      | "" => if is_space a then "" else String a ""
      | r' => String a r'
      end
  | "" => ""
  end.

(** The value of one of the ASCII digits 0 to 9. *)
Definition digit (a : ascii) : option Z :=
  let n := N_of_ascii a in
  if N.leb 48 n && N.leb n 57 then Some (Z.of_N n - 48) else None.

Fixpoint digits (acc : Z) (s : string) : option Z :=
  match s with
  | "" => Some acc
  | String a r =>
      match digit a with
      | Some d => digits (10 * acc + d) r
      | None => None
      end
  end.

(** An ASCII character other than the underscore. *)
Definition plain_char (a : ascii) : bool :=
  N.ltb (N_of_ascii a) 128 && negb (Ascii.eqb a "_").

Fixpoint plain_chars (s : string) : bool :=
  match s with
  | "" => true
  | String a r => plain_char a && plain_chars r
  end.

Definition plain (s : string) : bool :=
  plain_chars s && Nat.leb (String.length s) 4300.

(** [int] on plain text. *)
Definition int_plain (s : string) : result Z :=
  let t := rstrip (lstrip s) in
  let '(neg, body) :=
    match t with
    | String a r =>
        if Ascii.eqb a "+" then (false, r)
        else if Ascii.eqb a "-" then (true, r)
        else (false, t)
    | "" => (false, t)
    end in
  match body with
  | "" => Raise (ValueError s)
  | _ =>
      match digits 0 body with
      | Some n => Ok (if neg then - n else n)
      | None => Raise (ValueError s)
      end
  end.

(** [int(s)]. *)
Definition py_int (w : World) (s : string) : result Z :=
  if plain s then int_plain s else int_text w s.

(** [s.startswith(p)] and [s[n:]]. *)
Definition startswith (s p : string) : bool := String.prefix p s.

Fixpoint drop_chars (n : nat) (s : string) : string :=
  match n, s with
  | O, _ => s
  | S n', String _ r => drop_chars n' r
  | S _, "" => ""
  end.

(** ** The inventory client: [class Netbox] *)
Module Netbox.

Definition Devices : string := "/dcim/devices/".
Definition Interfaces : string := "/dcim/interfaces/".
Definition VLANs : string := "/ipam/vlans/".

Record t : Type := {
  base_url : string;
  api_key : string;
  headers : list (string * string)
}.

(** [Netbox.__init__]. *)
Definition init (api_url api_key : string) : t :=
  {| base_url := api_url;
     api_key := api_key;
     headers := [("Authorization", "Token " +:+ api_key);
                 ("Content-Type", "application/json")] |}.

(** [Netbox.get]: one read; whatever the transport raises is raised. *)
Definition get (w : World) (self : t) (path : string) (arg : json) : Py json :=
  fun log =>
    let url := base_url self +:+ path +:+ py_str w arg in
    (http_get_json w url (headers self), (log ++ [url])%list).

(** [args[k] = v] on the items of a dictionary. *)
Fixpoint setitem (args : list (string * json)) (k : string) (v : json)
  : list (string * json) :=
  match args with
  | [] => [(k, v)]
  | (k', v') :: rest =>
      if String.eqb k' k then (k, v) :: rest else (k', v') :: setitem rest k v
  end.

(** [Netbox.filter]; the callers leave [limit] at its default, 1000. *)
Definition filter (w : World) (self : t) (path : string)
    (args : list (string * json)) (limit : Z) : Py json :=
  let args := setitem args "limit" (JInt limit) in
  let args := String.concat "&" ((λ i, i.1 +:+ "=" +:+ py_str w i.2) <$> args) in
  let path := path +:+ "?" +:+ args in
  r ← get w self path (JStr "");
  lift (getitem r "results").

End Netbox.

(** ** The port normaliser: [class Port] *)
Module Port.

Record t : Type := {
  shutdown : bool;
  clean : bool;
  type : json;
  descr : json;
  mtu : json;
  lag : json;
  lagmode : json;
  untagged : json;
  tagged : json
}.

(** [Port.__init__]. *)
Definition init : t :=
  {| shutdown := true; clean := true; type := JNull; descr := JNull;
     mtu := JNull; lag := JNull; lagmode := JNull; untagged := JNull;
     tagged := JNull |}.

(** Attribute assignments [self.f = v]. *)
Definition set_shutdown (v : bool) (p : t) : t :=
  {| shutdown := v; clean := clean p; type := type p; descr := descr p;
     mtu := mtu p; lag := lag p; lagmode := lagmode p;
     untagged := untagged p; tagged := tagged p |}.
Definition set_clean (v : bool) (p : t) : t :=
  {| shutdown := shutdown p; clean := v; type := type p; descr := descr p;
     mtu := mtu p; lag := lag p; lagmode := lagmode p;
     untagged := untagged p; tagged := tagged p |}.
Definition set_type (v : json) (p : t) : t :=
  {| shutdown := shutdown p; clean := clean p; type := v; descr := descr p;
     mtu := mtu p; lag := lag p; lagmode := lagmode p;
     untagged := untagged p; tagged := tagged p |}.
Definition set_descr (v : json) (p : t) : t :=
  {| shutdown := shutdown p; clean := clean p; type := type p; descr := v;
     mtu := mtu p; lag := lag p; lagmode := lagmode p;
     untagged := untagged p; tagged := tagged p |}.
Definition set_mtu (v : json) (p : t) : t :=
  {| shutdown := shutdown p; clean := clean p; type := type p; descr := descr p;
     mtu := v; lag := lag p; lagmode := lagmode p;
     untagged := untagged p; tagged := tagged p |}.
Definition set_lag (v : json) (p : t) : t :=
  {| shutdown := shutdown p; clean := clean p; type := type p; descr := descr p;
     mtu := mtu p; lag := v; lagmode := lagmode p;
     untagged := untagged p; tagged := tagged p |}.
Definition set_lagmode (v : json) (p : t) : t :=
  {| shutdown := shutdown p; clean := clean p; type := type p; descr := descr p;
     mtu := mtu p; lag := lag p; lagmode := v;
     untagged := untagged p; tagged := tagged p |}.
Definition set_untagged (v : json) (p : t) : t :=
  {| shutdown := shutdown p; clean := clean p; type := type p; descr := descr p;
     mtu := mtu p; lag := lag p; lagmode := lagmode p;
     untagged := v; tagged := tagged p |}.
Definition set_tagged (v : json) (p : t) : t :=
  {| shutdown := shutdown p; clean := clean p; type := type p; descr := descr p;
     mtu := mtu p; lag := lag p; lagmode := lagmode p;
     untagged := untagged p; tagged := v |}.

(** [data[k] = v] when [v] is true, as in [if self.f: data['f'] = self.f]. *)
Definition put_if (k : string) (v : json) (data : gmap string json)
  : gmap string json :=
  if truthy v then <[k := v]> data else data.

(** [Port.to_dict]. *)
Definition to_dict (self : t) : gmap string json :=
  if clean self then {[ "clean" := JBool true ]}
  else
    let data : gmap string json := {[ "shutdown" := JBool (shutdown self) ]} in
    let data := put_if "type" (type self) data in
    let data := put_if "descr" (descr self) data in
    let data := put_if "mtu" (mtu self) data in
    let data := put_if "lag" (lag self) data in
    let data := put_if "lagmode" (lagmode self) data in
    let data := put_if "untagged" (untagged self) data in
    let data := put_if "tagged" (tagged self) data in
    data.

(** Lines 77-87 of [__load_mode_and_vlans]: the switchport mode. *)
Definition set_mode (self : t) (o : json) : result t :=
  mode ← getitem o "mode";
  if truthy mode then
    v ← getitem mode "value";
    if eq_str v "access" then
      mret (set_type (JStr "access") self)
    else if eq_str v "tagged" then
      mret (set_type (JStr "trunk") self)
    else if eq_str v "tagged-all" then
      mret (set_tagged (JStr "all")
             (set_untagged (JInt 1)
               (set_type (JStr "trunk") self)))
    else
      Raise (AssertionError "Unknown mode: " (Some v))
  else mret self.

(** Lines 92-96, "set untagged and tagged vlans". *)
Definition set_vlans (self : t) (o : json) : result t :=
  u ← getitem o "untagged_vlan";
  self ← (if truthy u then
            vid ← getitem u "vid";
            mret (set_untagged vid self)
          else mret self);
  tv ← getitem o "tagged_vlans";
  if truthy tv then
    items ← iter tv;
    vids ← mapM (λ i, getitem i "vid") items;
    mret (set_tagged (JList vids) self)
  else mret self.

(** [Port.__load_mode_and_vlans]: the port after the method, or the
    exception it raised. *)
Definition __load_mode_and_vlans (self : t) (o : json) : result t :=
  self ← set_mode self o;
  set_vlans self o.

(** The test of line 103:
    [o['connected_endpoint_type'] == None and o['type']['value'] != 'lag']. *)
Definition uninteresting (o : json) : result bool :=
  cet ← getitem o "connected_endpoint_type";
  if eq_None cet then
    ty ← getitem o "type";
    v ← getitem ty "value";
    mret (negb (eq_str v "lag"))
  else mret false.

(** The section "set descr" (lines 112-124): the value given to
    [port.descr]. *)
Definition description (w : World) (o : json) : result json :=
  d ← getitem o "description";
  if truthy d then mret d
  else
    cet ← getitem o "connected_endpoint_type";
    if eq_str cet "dcim.interface" then
      ce ← getitem o "connected_endpoint";
      dev ← getitem ce "device";
      dname ← getitem dev "name";
      iname ← getitem ce "name";
      mret (JStr (py_str w dname +:+ ":" +:+ py_str w iname))
    else if eq_str cet "circuits.circuittermination" then
      ce ← getitem o "connected_endpoint";
      circuit ← getitem ce "circuit";
      cid ← getitem circuit "cid";
      mret (JStr (py_str w cid))
    else
      Raise (AssertionError "Unknown connected_endpoint_type: " (Some cet)).

(** Lines 135-139: the aggregation group number read off the parent's name. *)
Definition lag_number (w : World) (name : json) : result Z :=
  match name with
  | JStr s =>
      if startswith s "Port-channel" then py_int w (drop_chars 12 s)
      else Raise (AssertionError
             "Cannot parse link-aggregation number from parent lag interface name"
             None)
  | JNull => Raise (AttributeError "'NoneType' object has no attribute 'startswith'")
  | JBool _ => Raise (AttributeError "'bool' object has no attribute 'startswith'")
  | JInt _ => Raise (AttributeError "'int' object has no attribute 'startswith'")
  | JList _ => Raise (AttributeError "'list' object has no attribute 'startswith'")
  | JObj _ => Raise (AttributeError "'dict' object has no attribute 'startswith'")
  end.

(** The section "set lag" (lines 135-145) for a record whose [o['lag']] is
    [l]: the group number, then the parent's record and its mode and
    VLANs. *)
Definition load_lag (w : World) (netbox : Netbox.t) (port : t) (l : json)
  : Py t :=
  name ← lift (getitem l "name");
  lag_number ← lift (lag_number w name);
  let port := set_lag (JInt lag_number) port in
  let port := set_lagmode (JStr "active") port in
  id ← lift (getitem l "id");
  lag_iface ← Netbox.get w netbox Netbox.Interfaces id;
  lift (__load_mode_and_vlans port lag_iface).

(** [Port.load_from_netbox]. *)
Definition load_from_netbox (w : World) (netbox : Netbox.t) (o : json) : Py t :=
  let port := init in
  c ← lift (uninteresting o);
  if (c : bool) then mret (set_clean true port)
  else
    let port := set_clean false port in
    d ← lift (description w o);
    let port := set_descr d port in
    enabled ← lift (getitem o "enabled");
    let port := set_shutdown (eq_False enabled) port in
    l ← lift (getitem o "lag");
    port ← (if truthy l then load_lag w netbox port l else mret port);
    port ← lift (__load_mode_and_vlans port o);
    m ← lift (getitem o "mtu");
    mret (if truthy m then set_mtu m port else port).

End Port.

(** ** The context assembler *)

(** Python dictionaries whose keys are JSON scalars, as their items in
    insertion order.  Keys compare as Python compares them ([True == 1]);
    lists and dictionaries cannot be keys. *)
Definition key_eq (a b : json) : bool :=
  match a, b with
  | JNull, JNull => true
  | JStr s, JStr s' => String.eqb s s'
  | JBool x, JBool y => Bool.eqb x y
  | JInt x, JInt y => Z.eqb x y
  | JBool x, JInt y | JInt y, JBool x => Z.eqb (if x then 1 else 0) y
  | _, _ => false
  end.

Fixpoint dict_put {V : Type} (d : list (json * V)) (k : json) (v : V)
  : list (json * V) :=
  match d with
  | [] => [(k, v)]
  | (k', v') :: rest =>
      if key_eq k' k then (k', v) :: rest else (k', v') :: dict_put rest k v
  end.

Definition dict_setitem {V : Type} (d : list (json * V)) (k : json) (v : V)
  : result (list (json * V)) :=
  match k with
  | JList _ => Raise (TypeError "unhashable type: 'list'")
  | JObj _ => Raise (TypeError "unhashable type: 'dict'")
  | _ => Ok (dict_put d k v)
  end.

(** A section of the output document. *)
Inductive section_value : Type :=
| Scalar (v : json)
| Mapping (d : list (json * gmap string json)).

(** [config[k]] on the [nbnak] section of the configuration file. *)
Definition config_get (config : gmap string string) (k : string) : result string :=
  match config !! k with
  | Some v => Ok v
  | None => Raise (KeyError k)
  end.

(** [__try_get_device]: the bare [except] turns every exception into [None]. *)
Definition __try_get_device (w : World) (netbox : Netbox.t) (device_name : string)
  : Py json :=
  try_except
    (results ← Netbox.filter w netbox Netbox.Devices
                 [("name", JStr device_name)] 1000;
     device ← lift (getitem0 results);
     lift (getitem device "id"))
    (λ _, mret JNull).

(** The loop of [_get_device_id]: the first true answer, if any. *)
Fixpoint try_names (w : World) (netbox : Netbox.t) (names : list string)
  : Py (option json) :=
  match names with
  | [] => mret None
  | name :: rest =>
      r ← __try_get_device w netbox name;
      if truthy r then mret (Some r) else try_names w netbox rest
  end.

(** [_get_device_id]. *)
Definition _get_device_id (w : World) (netbox : Netbox.t)
    (config : gmap string string) (device_name : string) : Py json :=
  domain ← lift (config_get config "search_domain");
  let names := [device_name; device_name +:+ "." +:+ domain] in
  r ← try_names w netbox names;
  match r with
  | Some id => mret id
  | None =>
      lift (Raise (AssertionError
                     ("Device not found. Tried: " +:+ String.concat ", " names)
                     None))
  end.

(** [get_device_info]. *)
Definition get_device_info (w : World) (netbox : Netbox.t) (device_id : json)
  : Py (gmap string section_value) :=
  device ← Netbox.get w netbox Netbox.Devices device_id;
  name ← lift (getitem device "name");
  mret {[ "hostname" := Scalar name ]}.

(** The dictionary [dict(map(lambda x: [x['vid'], dict(name=x['name'])], l))]. *)
Fixpoint vlan_dict (l : list json) (acc : list (json * gmap string json))
  : result (list (json * gmap string json)) :=
  match l with
  | [] => Ok acc
  | x :: rest =>
      vid ← getitem x "vid";
      name ← getitem x "name";
      acc ← dict_setitem acc vid {[ "name" := name ]};
      vlan_dict rest acc
  end.

(** [get_vlans]. *)
Definition get_vlans (w : World) (netbox : Netbox.t)
  : Py (gmap string section_value) :=
  results ← Netbox.filter w netbox Netbox.VLANs [] 1000;
  items ← lift (iter results);
  vlans ← lift (vlan_dict items []);
  mret {[ "vlans" := Mapping vlans ]}.

(** The loop of [get_ports]. *)
Fixpoint port_dict (w : World) (netbox : Netbox.t) (data : list json)
    (ports : list (json * gmap string json))
  : Py (list (json * gmap string json)) :=
  match data with
  | [] => mret ports
  | iface :: rest =>
      name ← lift (getitem iface "name");
      port ← Port.load_from_netbox w netbox iface;
      ports ← lift (dict_setitem ports name (Port.to_dict port));
      port_dict w netbox rest ports
  end.

(** [get_ports]. *)
Definition get_ports (w : World) (netbox : Netbox.t) (device_id : json)
  : Py (gmap string section_value) :=
  data ← Netbox.filter w netbox Netbox.Interfaces [("device_id", device_id)] 1000;
  items ← lift (iter data);
  ports ← port_dict w netbox items [];
  mret {[ "ports" := Mapping ports ]}.

(** [get_users]: [NotImplemented] is a constant, not an exception class, so
    the call [NotImplemented("...")] inside the [raise] statement raises
    [TypeError] before anything else is raised. *)
Definition get_users (w : World) (netbox : Netbox.t)
  : Py (gmap string section_value) :=
  lift (Raise (TypeError "'NotImplementedType' object is not callable")).

(** ** [main], after the command line and the configuration file are read *)

Record Options : Type := {
  device : option string;
  vlans : bool;
  ports : bool;
  users : bool
}.

(** How a run ends: the document is printed (exit status 0), [sys.exit(code)]
    after printing [text], or an exception nobody caught. *)
Inductive outcome : Type :=
| Printed (context : gmap string section_value)
| Exited (text : string) (code : Z)
| Uncaught (e : exn).

(** [str(e)]: the message of an exception built from one string, the
    quoted key of a [KeyError], and [str] of the argument tuple, rendered by
    [str_container], when there are two arguments. *)
Definition exn_str (w : World) (e : exn) : string :=
  match e with
  | AssertionError msg None => msg
  | AssertionError msg (Some v) => str_container w (JList [JStr msg; v])
  | KeyError k => "'" +:+ k +:+ "'"
  | IndexError => "list index out of range"
  | TypeError msg | AttributeError msg | NotImplementedError msg
  | RequestsError msg => msg
  | ValueError s => "invalid literal for int() with base 10: '" +:+ s +:+ "'"
  end.

(** [options.device] counts as given when it is a non-empty string. *)
Definition given (d : option string) : option string :=
  match d with
  | Some s => if String.eqb s "" then None else Some s
  | None => None
  end.

(** The statements of [main] after the device lookup. *)
Definition main_sections (w : World) (netbox : Netbox.t) (options : Options)
    (device_id : json) (context : gmap string section_value) : Py outcome :=
  context ← (if vlans options then
               v ← get_vlans w netbox; mret (v ∪ context)
             else mret context);
  context ← (if ports options then
               p ← get_ports w netbox device_id; mret (p ∪ context)
             else mret context);
  context ← (if users options then
               u ← get_users w netbox; mret (u ∪ context)
             else mret context);
  mret (Printed context).

(** The statements of [main] from [netbox = Netbox(...)] on; the lookup of
    the device sits in [try ... except Exception as e: print(str(e));
    sys.exit(1)]. *)
Definition main_body (w : World) (options : Options)
    (config : gmap string string) : Py outcome :=
  api_url ← lift (config_get config "api_url");
  api_key ← lift (config_get config "api_key");
  let netbox := Netbox.init api_url api_key in
  let context : gmap string section_value := ∅ in
  match given (device options) with
  | Some name =>
      r ← try_except
            (id ← _get_device_id w netbox config name; mret (inl id))
            (λ e, mret (inr (exn_str w e)));
      match r with
      | inr text => mret (Exited text 1)
      | inl device_id =>
          device ← get_device_info w netbox device_id;
          main_sections w netbox options device_id (device ∪ context)
      end
  | None => main_sections w netbox options JNull context
  end.

(** [main]: an exception that reaches the top ends the process. *)
Definition main (w : World) (options : Options) (config : gmap string string)
  : outcome * list string :=
  match main_body w options config [] with
  | (Ok out, log) => (out, log)
  | (Raise e, log) => (Uncaught e, log)
  end.

(** * Definitions used by the statements *)

(** What [if v: data[k] = v] leaves under [k] in a dictionary that had no
    such key. *)
Definition present (v : json) : option json :=
  if truthy v then Some v else None.

(** The port before the LAG and mode steps: description and shutdown set. *)
Definition described (d e : json) : Port.t :=
  Port.set_shutdown (eq_False e) (Port.set_descr d (Port.set_clean false Port.init)).

(** The port after the [tagged-all] branch. *)
Definition all_vlans (q : Port.t) : Port.t :=
  Port.set_tagged (JStr "all")
    (Port.set_untagged (JInt 1) (Port.set_type (JStr "trunk") q)).

(** Text made of decimal digits only. *)
Fixpoint digit_string (s : string) : bool :=
  match s with
  | "" => true
  | String a r =>
      match digit a with
      | Some _ => digit_string r
      | None => false
      end
  end.

(** The exceptions of lines 139, 124, 170 and 199. *)
Definition parse_error : exn :=
  AssertionError
    "Cannot parse link-aggregation number from parent lag interface name" None.

Definition unknown_endpoint (cet : json) : exn :=
  AssertionError "Unknown connected_endpoint_type: " (Some cet).

Definition not_found (name full : string) : exn :=
  AssertionError ("Device not found. Tried: " +:+ name +:+ ", " +:+ full) None.

Definition not_callable : exn :=
  TypeError "'NotImplementedType' object is not callable".

(** The URL of the lookup of a device by name. *)
Definition device_url (nb : Netbox.t) (name : string) : string :=
  Netbox.base_url nb +:+ "/dcim/devices/?name=" +:+ name +:+ "&limit=1000".

(** What the lookup of [name] answers: the [id] of the first result, and
    [None] when the read, the envelope, the list or the field fails. *)
Definition lookup_answer (w : World) (nb : Netbox.t) (name : string) : json :=
  match http_get_json w (device_url nb name) (Netbox.headers nb) with
  | Ok body =>
      match (results ← getitem body "results";
             device ← getitem0 results;
             getitem device "id") with
      | Ok id => id
      | Raise _ => JNull
      end
  | Raise _ => JNull
  end.

(** The URL of the read of one interface, of the interfaces of a device and
    of the VLAN collection. *)
Definition interface_url (w : World) (nb : Netbox.t) (id : json) : string :=
  Netbox.base_url nb +:+ Netbox.Interfaces +:+ py_str w id.

Definition ports_url (w : World) (nb : Netbox.t) (device_id : json) : string :=
  Netbox.base_url nb +:+ "/dcim/interfaces/?device_id=" +:+ py_str w device_id
    +:+ "&limit=1000".

Definition vlans_url (nb : Netbox.t) : string :=
  Netbox.base_url nb +:+ "/ipam/vlans/?limit=1000".

(** A computation lets the errors of the transport through: when the read
    of a URL it requested raises, that read is the last one it makes and it
    ends with the exception the read raised. *)
Definition propagates (w : World) (nb : Netbox.t) {A : Type} (c : Py A) : Prop :=
  ∀ (log log' : list string) (r : result A),
    c log = (r, log') →
    ∃ extra : list string,
      log' = (log ++ extra)%list
      ∧ ∀ (i : nat) (u : string) (e : exn),
          extra !! i = Some u →
          http_get_json w u (Netbox.headers nb) = Raise e →
          r = Raise e ∧ S i = List.length extra.

(** The reads of the lookup of the device, at the start of a run. *)
Definition lookup_reads (w : World) (nb : Netbox.t) (options : Options)
    (config : gmap string string) : list string :=
  match given (device options) with
  | Some name => (_get_device_id w nb config name []).2
  | None => []
  end.

(** ** Sample inventories and records *)

(** A world that serves the documents of [pages] and answers every other
    URL as an unreachable server would.  The examples convert plain text
    only and never write a list or a dictionary, so the two functions of
    its interpreter are never called. *)
Definition serving (pages : list (string * json)) : World :=
  {| http_get_json := λ url _,
       match list_find (λ p, p.1 = url) pages with
       | Some (_, (_, body)) => Ok body
       | None => Raise (RequestsError "connection refused")
       end;
     str_container := λ _, "";
     int_text := λ s, Raise (ValueError s) |}.

Definition refused : exn := RequestsError "connection refused".

Definition nb0 : Netbox.t := Netbox.init "http://nb/api" "secret".

Definition config0 : gmap string string :=
  list_to_map [("api_url", "http://nb/api"); ("api_key", "secret");
               ("search_domain", "example.org")].

(** The interface of the specification's first example. *)
Definition eth1 : json :=
  JObj (list_to_map
    [("name", JStr "Eth1"); ("enabled", JBool true);
     ("description", JStr "uplink"); ("mtu", JInt 9000); ("lag", JNull);
     ("connected_endpoint_type", JStr "dcim.interface");
     ("mode", JObj {[ "value" := JStr "tagged" ]});
     ("untagged_vlan", JObj {[ "vid" := JInt 10 ]});
     ("tagged_vlans", JList [JObj {[ "vid" := JInt 20 ]};
                             JObj {[ "vid" := JInt 30 ]}])]).

(** A port nothing is plugged into. *)
Definition idle_port : json :=
  JObj (list_to_map
    [("name", JStr "Eth7"); ("connected_endpoint_type", JNull);
     ("type", JObj {[ "value" := JStr "1000base-t" ]})]).

(** A LAG interface as the inventory lists it: no cable, so no connected
    endpoint, and no description. *)
Definition bare_lag_fields : gmap string json :=
  list_to_map
    [("name", JStr "Port-channel1"); ("enabled", JBool true);
     ("description", JStr ""); ("mtu", JNull); ("lag", JNull);
     ("connected_endpoint_type", JNull); ("connected_endpoint", JNull);
     ("type", JObj {[ "value" := JStr "lag" ]});
     ("mode", JNull); ("untagged_vlan", JNull); ("tagged_vlans", JList [])].

Definition bare_lag : json := JObj bare_lag_fields.

(** A connected port whose [enabled] field is null. *)
Definition null_enabled : json :=
  JObj (list_to_map
    [("name", JStr "Eth2"); ("enabled", JNull);
     ("description", JStr "spare"); ("mtu", JNull); ("lag", JNull);
     ("connected_endpoint_type", JStr "dcim.interface");
     ("mode", JNull); ("untagged_vlan", JNull); ("tagged_vlans", JList [])]).

(** A connected trunk carrying every VLAN, with a native VLAN of its own,
    and what it normalises to. *)
Definition trunk_all : json :=
  JObj (list_to_map
    [("name", JStr "Eth3"); ("enabled", JBool false);
     ("description", JStr "core"); ("mtu", JNull); ("lag", JNull);
     ("connected_endpoint_type", JStr "dcim.interface");
     ("mode", JObj {[ "value" := JStr "tagged-all" ]});
     ("untagged_vlan", JObj {[ "vid" := JInt 5 ]}); ("tagged_vlans", JList [])]).

Definition trunk_all_port : Port.t :=
  {| Port.shutdown := true; Port.clean := false; Port.type := JStr "trunk";
     Port.descr := JStr "core"; Port.mtu := JNull; Port.lag := JNull;
     Port.lagmode := JNull; Port.untagged := JInt 5;
     Port.tagged := JStr "all" |}.

(** A member port of Port-channel3 with no switchport settings of its own,
    the parent's record as the inventory serves it, and what the member
    normalises to. *)
Definition member_port : json :=
  JObj (list_to_map
    [("name", JStr "Eth5"); ("enabled", JBool true);
     ("description", JStr "server"); ("mtu", JNull);
     ("lag", JObj {[ "id" := JInt 7; "name" := JStr "Port-channel3" ]});
     ("connected_endpoint_type", JStr "dcim.interface");
     ("mode", JNull); ("untagged_vlan", JNull); ("tagged_vlans", JList [])]).

Definition parent_lag : json :=
  JObj (list_to_map
    [("name", JStr "Port-channel3");
     ("mode", JObj {[ "value" := JStr "tagged" ]});
     ("untagged_vlan", JObj {[ "vid" := JInt 10 ]});
     ("tagged_vlans", JList [JObj {[ "vid" := JInt 20 ]}])]).

Definition lag_world : World :=
  serving [("http://nb/api/dcim/interfaces/7", parent_lag)].

Definition member_port_normalised : Port.t :=
  {| Port.shutdown := false; Port.clean := false; Port.type := JStr "trunk";
     Port.descr := JStr "server"; Port.mtu := JNull; Port.lag := JInt 3;
     Port.lagmode := JStr "active"; Port.untagged := JInt 10;
     Port.tagged := JList [JInt 20] |}.

(** The same member port under a parent whose name stops after the prefix. *)
Definition member_of_unnumbered : json :=
  JObj (list_to_map
    [("name", JStr "Eth5"); ("enabled", JBool true);
     ("description", JStr "server"); ("mtu", JNull);
     ("lag", JObj {[ "id" := JInt 7; "name" := JStr "Port-channel" ]});
     ("connected_endpoint_type", JStr "dcim.interface");
     ("mode", JNull); ("untagged_vlan", JNull); ("tagged_vlans", JList [])]).

(** And under a parent whose number is written after a space. *)
Definition member_of_spaced : json :=
  JObj (list_to_map
    [("name", JStr "Eth5"); ("enabled", JBool true);
     ("description", JStr "server"); ("mtu", JNull);
     ("lag", JObj {[ "id" := JInt 7; "name" := JStr "Port-channel 3" ]});
     ("connected_endpoint_type", JStr "dcim.interface");
     ("mode", JNull); ("untagged_vlan", JNull); ("tagged_vlans", JList [])]).

(** And under a parent of any name. *)
Definition member_under (name : string) : json :=
  JObj (list_to_map
    [("name", JStr "Eth5"); ("enabled", JBool true);
     ("description", JStr "server"); ("mtu", JNull);
     ("lag", JObj {[ "id" := JInt 7; "name" := JStr name ]});
     ("connected_endpoint_type", JStr "dcim.interface");
     ("mode", JNull); ("untagged_vlan", JNull); ("tagged_vlans", JList [])]).

(** A record cabled to another device, with no description of its own. *)
Definition cabled_port : json :=
  JObj (list_to_map
    [("name", JStr "Eth4"); ("enabled", JBool true);
     ("description", JStr ""); ("mtu", JNull); ("lag", JNull);
     ("connected_endpoint_type", JStr "dcim.interface");
     ("connected_endpoint",
        JObj {[ "name" := JStr "xe-0/0/1";
                "device" := JObj {[ "name" := JStr "core1" ]} ]});
     ("mode", JNull); ("untagged_vlan", JNull); ("tagged_vlans", JList [])]).

(** An inventory with one device, known by its full name only. *)
Definition sw1_world : World :=
  serving [("http://nb/api/dcim/devices/?name=sw1.example.org&limit=1000",
            JObj {[ "results" := JList [JObj {[ "id" := JInt 42 ]}] ]})].

(** Command lines: [--users], [--device sw1], [--vlans]. *)
Definition users_only : Options :=
  {| device := None; vlans := false; ports := false; users := true |}.

Definition sw1_only : Options :=
  {| device := Some "sw1"; vlans := false; ports := false; users := false |}.

Definition vlans_only : Options :=
  {| device := None; vlans := true; ports := false; users := false |}.

(** The command line [--device sw1 --ports], and an inventory that knows the
    device and its interfaces but does not answer for the parent of the LAG
    member. *)
Definition sw1_ports : Options :=
  {| device := Some "sw1"; vlans := false; ports := true; users := false |}.

Definition parent_refused_world : World :=
  serving
    [("http://nb/api/dcim/devices/?name=sw1.example.org&limit=1000",
      JObj {[ "results" := JList [JObj {[ "id" := JInt 42 ]}] ]});
     ("http://nb/api/dcim/devices/42",
      JObj {[ "id" := JInt 42; "name" := JStr "sw1.example.org" ]});
     ("http://nb/api/dcim/interfaces/?device_id=42&limit=1000",
      JObj {[ "results" := JList [idle_port; member_port; eth1] ]})].

(** ** Definitions for the further properties *)

(** The keys a serialised port can have. *)
Definition port_keys : gset string :=
  {[ "clean"; "shutdown"; "type"; "descr"; "mtu"; "lag"; "lagmode";
     "untagged"; "tagged" ]}.

(** Whether a record declares a LAG parent: [o['lag']] is there and true. *)
Definition declares_lag (o : json) : bool :=
  match getitem o "lag" with
  | Ok l => truthy l
  | Raise _ => false
  end.

(** The URL of the read of the parent a record names, when [o['lag']] is
    there, is true and has an [id]. *)
Definition parent_url (w : World) (nb : Netbox.t) (o : json) : option string :=
  match getitem o "lag" with
  | Ok l =>
      if truthy l then
        match getitem l "id" with
        | Ok id => Some (interface_url w nb id)
        | Raise _ => None
        end
      else None
  | Raise _ => None
  end.

(** What [get_ports] gets to iterate over: the items of the [results] of
    the collection of the interfaces of a device, or the exception of the
    read, of the envelope or of the iteration. *)
Definition interfaces_answer (w : World) (nb : Netbox.t) (device_id : json)
  : result (list json) :=
  body ← http_get_json w (ports_url w nb device_id) (Netbox.headers nb);
  results ← getitem body "results";
  iter results.

(** The interface records the inventory serves for a device; none when
    that answer is an exception. *)
Definition served_interfaces (w : World) (nb : Netbox.t) (device_id : json)
  : list json :=
  match interfaces_answer w nb device_id with
  | Ok items => items
  | Raise _ => []
  end.

(** A computation that only adds reads of URLs under [base] to the log, and
    whose result does not depend on the log it starts from. *)
Definition reads_under (base : string) {A : Type} (c : Py A) : Prop :=
  ∃ (r : result A) (extra : list string),
    (∀ log, c log = (r, (log ++ extra)%list))
    ∧ Forall (λ u, ∃ rest, u = base +:+ rest) extra.

(** An inventory with the three interfaces of device 42 and the parent of
    the one that is a LAG member; what the export of its ports returns. *)
Definition ports_world : World :=
  serving [("http://nb/api/dcim/interfaces/?device_id=42&limit=1000",
            JObj {[ "results" := JList [idle_port; member_port; eth1] ]});
           ("http://nb/api/dcim/interfaces/7", parent_lag)].

Definition ports_of_sw1 : result (gmap string section_value) :=
  Ok {[ "ports" :=
          Mapping
            [(JStr "Eth7", {[ "clean" := JBool true ]});
             (JStr "Eth5", Port.to_dict member_port_normalised);
             (JStr "Eth1",
              list_to_map
                [("shutdown", JBool false); ("type", JStr "trunk");
                 ("descr", JStr "uplink"); ("mtu", JInt 9000);
                 ("untagged", JInt 10);
                 ("tagged", JList [JInt 20; JInt 30])])] ]}.

(** An inventory that answers every read of a run on device sw1: the lookup
    by its full name, the device, its interfaces, the parent of the LAG
    member, and the VLANs. *)
Definition full_world : World :=
  serving
    [("http://nb/api/dcim/devices/?name=sw1.example.org&limit=1000",
      JObj {[ "results" := JList [JObj {[ "id" := JInt 42 ]}] ]});
     ("http://nb/api/dcim/devices/42",
      JObj {[ "id" := JInt 42; "name" := JStr "sw1.example.org" ]});
     ("http://nb/api/ipam/vlans/?limit=1000",
      JObj {[ "results" :=
                JList [JObj {[ "vid" := JInt 10; "name" := JStr "users" ]};
                       JObj {[ "vid" := JInt 20; "name" := JStr "voice" ]}] ]});
     ("http://nb/api/dcim/interfaces/?device_id=42&limit=1000",
      JObj {[ "results" := JList [idle_port; member_port; eth1] ]});
     ("http://nb/api/dcim/interfaces/7", parent_lag)].

(** The command line [--device sw1 --vlans --ports]. *)
Definition everything_but_users : Options :=
  {| device := Some "sw1"; vlans := true; ports := true; users := false |}.

(** The document that run prints, and the reads it makes. *)
Definition sw1_document : gmap string section_value :=
  {[ "hostname" := Scalar (JStr "sw1.example.org");
     "vlans" :=
       Mapping [(JInt 10, {[ "name" := JStr "users" ]});
                (JInt 20, {[ "name" := JStr "voice" ]})];
     "ports" :=
       Mapping
         [(JStr "Eth7", {[ "clean" := JBool true ]});
          (JStr "Eth5", Port.to_dict member_port_normalised);
          (JStr "Eth1",
           list_to_map
             [("shutdown", JBool false); ("type", JStr "trunk");
              ("descr", JStr "uplink"); ("mtu", JInt 9000);
              ("untagged", JInt 10);
              ("tagged", JList [JInt 20; JInt 30])])] ]}.

Definition sw1_reads : list string :=
  ["http://nb/api/dcim/devices/?name=sw1&limit=1000";
   "http://nb/api/dcim/devices/?name=sw1.example.org&limit=1000";
   "http://nb/api/dcim/devices/42";
   "http://nb/api/ipam/vlans/?limit=1000";
   "http://nb/api/dcim/interfaces/?device_id=42&limit=1000";
   "http://nb/api/dcim/interfaces/7"].

(** The command line [--ports], with no device. *)
Definition ports_only : Options :=
  {| device := None; vlans := false; ports := true; users := false |}.


(** [d.get(k)] on the items of a dictionary: the value of the item whose key
    equals [k], if there is one. *)
Fixpoint dict_get {V : Type} (d : list (json * V)) (k : json) : option V :=
  match d with
  | [] => None
  | (k', v) :: rest => if key_eq k' k then Some v else dict_get rest k
  end.

(** No record of [l] has a [vid] (or a [name], for interfaces) equal to [q]. *)
Definition no_key (field : string) (l : list json) (q : json) : Prop :=
  ∀ x k, x ∈ l → getitem x field = Ok k → key_eq k q = false.

(** The fields of an interface record that normalisation looks at. *)
Definition consumed : gset string :=
  {[ "connected_endpoint_type"; "type"; "description"; "connected_endpoint";
     "enabled"; "lag"; "mode"; "untagged_vlan"; "tagged_vlans"; "mtu" ]}.

(** A member port of Port-channel0, and what it normalises to. *)
Definition member_of_zero : json :=
  JObj (list_to_map
    [("name", JStr "Eth6"); ("enabled", JBool true);
     ("description", JStr "server"); ("mtu", JInt 0);
     ("lag", JObj {[ "id" := JInt 7; "name" := JStr "Port-channel0" ]});
     ("connected_endpoint_type", JStr "dcim.interface");
     ("mode", JNull); ("untagged_vlan", JNull); ("tagged_vlans", JList [])]).

Definition member_of_zero_normalised : Port.t :=
  {| Port.shutdown := false; Port.clean := false; Port.type := JStr "trunk";
     Port.descr := JStr "server"; Port.mtu := JNull; Port.lag := JInt 0;
     Port.lagmode := JStr "active"; Port.untagged := JInt 10;
     Port.tagged := JList [JInt 20] |}.

(** The fields of a connected access port, to which a label is added. *)
Definition access_fields : gmap string json :=
  list_to_map
    [("name", JStr "Eth8"); ("enabled", JBool true);
     ("description", JStr "printer"); ("mtu", JInt 1500); ("lag", JNull);
     ("connected_endpoint_type", JStr "dcim.interface");
     ("mode", JObj {[ "value" := JStr "access" ]});
     ("untagged_vlan", JObj {[ "vid" := JInt 30 ]}); ("tagged_vlans", JList [])].

(** * Properties *)

Example py_int_12 : ∀ w, py_int w "12" = Ok 12.
Proof. reflexivity. Qed.

Example py_int_padded : ∀ w, py_int w " 7 " = Ok 7.
Proof. reflexivity. Qed.

Example py_int_signed : ∀ w, py_int w "-3" = Ok (-3).
Proof. reflexivity. Qed.

Example py_int_empty : ∀ w, py_int w "" = Raise (ValueError "").
Proof. reflexivity. Qed.

Example py_int_letters : ∀ w, py_int w "1a" = Raise (ValueError "1a").
Proof. reflexivity. Qed.

(** The separator characters 28 to 31 are not dropped. *)
Example py_int_separator :
  ∀ w, py_int w (String "028" "3") = Raise (ValueError (String "028" "3")).
Proof. reflexivity. Qed.

(** An underscore, and the two bytes of the Arabic-Indic digit three, leave
    the answer to the interpreter. *)
Example py_int_underscore : ∀ w, py_int w "1_0" = int_text w "1_0".
Proof. reflexivity. Qed.

Example py_int_arabic_indic_three :
  ∀ w, py_int w (String "217" (String "163" ""))
       = int_text w (String "217" (String "163" "")).
Proof. reflexivity. Qed.

Example eth1_normalised :
  ∃ p, Port.load_from_netbox (serving []) nb0 eth1 [] = (Ok p, [])
       ∧ Port.to_dict p
         = list_to_map
             [("shutdown", JBool false); ("type", JStr "trunk");
              ("descr", JStr "uplink"); ("mtu", JInt 9000);
              ("untagged", JInt 10); ("tagged", JList [JInt 20; JInt 30])].
Proof. eexists. split; [vm_compute; reflexivity | vm_compute; reflexivity]. Qed.

(** ** Equality tests and subscripts *)

Lemma eq_str_true (v : json) (s : string) : eq_str v s = true ↔ v = JStr s.
Proof.
  destruct v; simpl; try (split; [discriminate | intros [=]]).
  rewrite String.eqb_eq. split; [intros -> | intros [=]]; done.
Qed.

Lemma eq_str_false (v : json) (s : string) : v ≠ JStr s → eq_str v s = false.
Proof.
  intros H. destruct (eq_str v s) eqn:E; [|done].
  apply eq_str_true in E. done.
Qed.

Lemma eq_None_true (v : json) : eq_None v = true ↔ v = JNull.
Proof. destruct v; simpl; split; congruence. Qed.

(** A value that can be subscripted by a key is true. *)
Lemma getitem_Ok_truthy (v x : json) (k : string) :
  getitem v k = Ok x → truthy v = true.
Proof.
  destruct v as [| | | | |m]; simpl; try discriminate.
  destruct (m !! k) eqn:Hk; [|discriminate]. intros _.
  rewrite bool_decide_eq_false_2; [done|].
  intros ->. by rewrite lookup_empty in Hk.
Qed.

Lemma getitem_insert_ne (m : gmap string json) (k k' : string) (x : json) :
  k' ≠ k → getitem (JObj (<[k' := x]> m)) k = getitem (JObj m) k.
Proof. intros H. simpl. by rewrite lookup_insert_ne. Qed.

Lemma getitem_delete_ne (m : gmap string json) (k k' : string) :
  k' ≠ k → getitem (JObj (delete k' m)) k = getitem (JObj m) k.
Proof. intros H. simpl. by rewrite lookup_delete_ne. Qed.

(** ** Mode and VLAN derivation *)

(** Unfolds the binds of [result] and [Py]. *)
Ltac unbind :=
  unfold mbind, mret, result_bind, result_ret, Py_bind, Py_ret, lift,
    try_except in *.

(** Splits on the next scrutinised computation of the goal or a hypothesis. *)
Ltac step :=
  match goal with
  | H : context [match ?c with Ok _ => _ | Raise _ => _ end] |- _ =>
      let E := fresh "E" in destruct c eqn:E; try discriminate H
  | H : context [if ?c then _ else _] |- _ =>
      let E := fresh "E" in destruct c eqn:E; try discriminate H
  end.

Lemma set_mode_frame (q q' : Port.t) (o : json) :
  Port.set_mode q o = Ok q' →
  Port.shutdown q' = Port.shutdown q ∧ Port.clean q' = Port.clean q
  ∧ Port.descr q' = Port.descr q ∧ Port.mtu q' = Port.mtu q
  ∧ Port.lag q' = Port.lag q ∧ Port.lagmode q' = Port.lagmode q.
Proof.
  unfold Port.set_mode. unbind. intros H.
  repeat step; simplify_eq; done.
Qed.

Lemma set_vlans_frame (q q' : Port.t) (o : json) :
  Port.set_vlans q o = Ok q' →
  Port.shutdown q' = Port.shutdown q ∧ Port.clean q' = Port.clean q
  ∧ Port.type q' = Port.type q
  ∧ Port.descr q' = Port.descr q ∧ Port.mtu q' = Port.mtu q
  ∧ Port.lag q' = Port.lag q ∧ Port.lagmode q' = Port.lagmode q.
Proof.
  unfold Port.set_vlans. unbind. intros H.
  repeat step; simplify_eq; done.
Qed.

Lemma load_mode_and_vlans_frame (q q' : Port.t) (o : json) :
  Port.__load_mode_and_vlans q o = Ok q' →
  Port.shutdown q' = Port.shutdown q ∧ Port.clean q' = Port.clean q
  ∧ Port.descr q' = Port.descr q ∧ Port.mtu q' = Port.mtu q
  ∧ Port.lag q' = Port.lag q ∧ Port.lagmode q' = Port.lagmode q.
Proof.
  unfold Port.__load_mode_and_vlans. unbind. intros H.
  destruct (Port.set_mode q o) as [q1|] eqn:E1; [|discriminate].
  apply set_mode_frame in E1. apply set_vlans_frame in H.
  intuition congruence.
Qed.

(** Without VLAN references the VLAN step changes nothing. *)
Lemma set_vlans_none (q : Port.t) (o u tv : json) :
  getitem o "untagged_vlan" = Ok u → truthy u = false →
  getitem o "tagged_vlans" = Ok tv → truthy tv = false →
  Port.set_vlans q o = Ok q.
Proof.
  intros Hu Hu' Ht Ht'. unfold Port.set_vlans. unbind.
  by rewrite Hu, Hu', Ht, Ht'.
Qed.

(** An untagged VLAN reference decides [untagged], whatever it was. *)
Lemma set_vlans_untagged (q q' : Port.t) (o u : json) :
  getitem o "untagged_vlan" = Ok u → truthy u = true →
  Port.set_vlans q o = Ok q' → getitem u "vid" = Ok (Port.untagged q').
Proof.
  intros Hu Hu'. unfold Port.set_vlans. unbind. rewrite Hu, Hu'. intros H.
  repeat step; simplify_eq; done.
Qed.

Lemma set_vlans_untagged_kept (q q' : Port.t) (o u : json) :
  getitem o "untagged_vlan" = Ok u → truthy u = false →
  Port.set_vlans q o = Ok q' → Port.untagged q' = Port.untagged q.
Proof.
  intros Hu Hu'. unfold Port.set_vlans. unbind. rewrite Hu, Hu'. intros H.
  repeat step; simplify_eq; done.
Qed.


Lemma set_vlans_tagged_kept (q q' : Port.t) (o tv : json) :
  getitem o "tagged_vlans" = Ok tv → truthy tv = false →
  Port.set_vlans q o = Ok q' → Port.tagged q' = Port.tagged q.
Proof.
  intros Ht Ht'. unfold Port.set_vlans. unbind. rewrite Ht, Ht'. intros H.
  repeat step; simplify_eq; done.
Qed.


(** ** The shape of a successful normalisation *)

Lemma load_from_netbox_clean (w : World) (nb : Netbox.t) (o : json)
    (log : list string) :
  Port.uninteresting o = Ok true →
  Port.load_from_netbox w nb o log = (Ok (Port.set_clean true Port.init), log).
Proof. intros H. unfold Port.load_from_netbox. unbind. by rewrite H. Qed.

(** What a record that is not left clean goes through. *)
Lemma load_from_netbox_steps (w : World) (nb : Netbox.t) (o d e l : json)
    (log : list string) :
  Port.uninteresting o = Ok false →
  Port.description w o = Ok d →
  getitem o "enabled" = Ok e →
  getitem o "lag" = Ok l →
  Port.load_from_netbox w nb o log =
    (port ← (if truthy l then Port.load_lag w nb (described d e) l
             else mret (described d e));
     port ← lift (Port.__load_mode_and_vlans port o);
     m ← lift (getitem o "mtu");
     mret (if truthy m then Port.set_mtu m port else port)) log.
Proof.
  intros Hc Hd He Hl. unfold Port.load_from_netbox. unbind.
  by rewrite Hc, Hd, He, Hl.
Qed.

Lemma load_from_netbox_Ok (w : World) (nb : Netbox.t) (o : json)
    (log log' : list string) (p : Port.t) :
  Port.load_from_netbox w nb o log = (Ok p, log') →
  (Port.uninteresting o = Ok true ∧ p = Port.set_clean true Port.init ∧ log' = log)
  ∨ (Port.uninteresting o = Ok false
     ∧ ∃ d e l q1 q2 m,
         Port.description w o = Ok d
         ∧ getitem o "enabled" = Ok e
         ∧ getitem o "lag" = Ok l
         ∧ (if truthy l then Port.load_lag w nb (described d e) l log
            else (Ok (described d e), log)) = (Ok q1, log')
         ∧ Port.__load_mode_and_vlans q1 o = Ok q2
         ∧ getitem o "mtu" = Ok m
         ∧ p = (if truthy m then Port.set_mtu m q2 else q2)).
Proof.
  unfold Port.load_from_netbox. unbind. intros H.
  destruct (Port.uninteresting o) as [[]|] eqn:Hc; [left|right|discriminate].
  { by simplify_eq. }
  split; [done|].
  destruct (Port.description w o) as [d|] eqn:Hd; [|discriminate].
  destruct (getitem o "enabled") as [e|] eqn:He; [|discriminate].
  destruct (getitem o "lag") as [l|] eqn:Hl; [|discriminate].
  fold (described d e) in H.
  exists d, e, l.
  destruct (truthy l) eqn:Htl.
  - destruct (Port.load_lag w nb (described d e) l log) as [[q1|] log1] eqn:Hlag;
      [|discriminate].
    destruct (Port.__load_mode_and_vlans q1 o) as [q2|] eqn:Hq2; [|discriminate].
    destruct (getitem o "mtu") as [m|] eqn:Hm; [|discriminate].
    exists q1, q2, m. by simplify_eq.
  - destruct (Port.__load_mode_and_vlans (described d e) o) as [q2|] eqn:Hq2;
      [|discriminate].
    destruct (getitem o "mtu") as [m|] eqn:Hm; [|discriminate].
    exists (described d e), q2, m. by simplify_eq.
Qed.

(** The port a successful normalisation returns is clean exactly when the
    record was uninteresting. *)
Lemma load_from_netbox_not_clean (w : World) (nb : Netbox.t) (o : json)
    (log log' : list string) (p : Port.t) :
  Port.load_from_netbox w nb o log = (Ok p, log') →
  Port.clean p = false → Port.uninteresting o = Ok false.
Proof.
  intros H Hc. apply load_from_netbox_Ok in H as [(_ & -> & _)|[H _]]; done.
Qed.

(** What a successful LAG step went through. *)
Lemma load_lag_Ok (w : World) (nb : Netbox.t) (q q1 : Port.t) (l : json)
    (log log' : list string) :
  Port.load_lag w nb q l log = (Ok q1, log') →
  ∃ name n id parent,
    getitem l "name" = Ok name
    ∧ Port.lag_number w name = Ok n
    ∧ getitem l "id" = Ok id
    ∧ Netbox.get w nb Netbox.Interfaces id log = (Ok parent, log')
    ∧ Port.__load_mode_and_vlans
        (Port.set_lagmode (JStr "active") (Port.set_lag (JInt n) q)) parent
      = Ok q1.
Proof.
  unfold Port.load_lag. unbind. intros H.
  destruct (getitem l "name") as [name|] eqn:Hn; [|discriminate].
  destruct (Port.lag_number w name) as [n|] eqn:Hnum; [|discriminate].
  destruct (getitem l "id") as [id|] eqn:Hid; [|discriminate].
  destruct (Netbox.get w nb Netbox.Interfaces id log) as [[parent|] log1] eqn:Hget;
    [|discriminate].
  exists name, n, id, parent. by simplify_eq.
Qed.

Lemma set_mtu_fields (m : json) (q : Port.t) :
  let p := if truthy m then Port.set_mtu m q else q in
  Port.shutdown p = Port.shutdown q ∧ Port.clean p = Port.clean q
  ∧ Port.type p = Port.type q ∧ Port.descr p = Port.descr q
  ∧ Port.lag p = Port.lag q ∧ Port.lagmode p = Port.lagmode q
  ∧ Port.untagged p = Port.untagged q ∧ Port.tagged p = Port.tagged q.
Proof. simpl. by destruct (truthy m). Qed.

(** ** The serialised port *)

Lemma put_if_lookup_ne (k k' : string) (v : json) (data : gmap string json) :
  k ≠ k' → Port.put_if k v data !! k' = data !! k'.
Proof.
  intros H. unfold Port.put_if. destruct (truthy v); [|done].
  by rewrite lookup_insert_ne.
Qed.

Lemma put_if_falsy (k : string) (v : json) (data : gmap string json) :
  truthy v = false → Port.put_if k v data = data.
Proof. intros H. unfold Port.put_if. by rewrite H. Qed.

Lemma to_dict_clean (p : Port.t) :
  Port.clean p = true → Port.to_dict p = {[ "clean" := JBool true ]}.
Proof. intros H. unfold Port.to_dict. by rewrite H. Qed.

Lemma to_dict_shutdown (p : Port.t) :
  Port.clean p = false →
  Port.to_dict p !! "shutdown" = Some (JBool (Port.shutdown p))
  ∧ Port.to_dict p !! "clean" = None.
Proof.
  intros H. unfold Port.to_dict. rewrite H. cbv zeta.
  rewrite !put_if_lookup_ne by done.
  split; [apply lookup_singleton_eq | by apply lookup_singleton_ne].
Qed.

Lemma put_if_lookup (k : string) (v : json) (data : gmap string json) :
  data !! k = None → Port.put_if k v data !! k = present v.
Proof.
  intros H. unfold Port.put_if, present. destruct (truthy v); [|done].
  apply lookup_insert_eq.
Qed.

(** The optional fields of a port that is not clean appear in its serialised
    form exactly when they are true. *)
Lemma to_dict_fields (p : Port.t) :
  Port.clean p = false →
  Port.to_dict p !! "type" = present (Port.type p)
  ∧ Port.to_dict p !! "descr" = present (Port.descr p)
  ∧ Port.to_dict p !! "mtu" = present (Port.mtu p)
  ∧ Port.to_dict p !! "lag" = present (Port.lag p)
  ∧ Port.to_dict p !! "lagmode" = present (Port.lagmode p)
  ∧ Port.to_dict p !! "untagged" = present (Port.untagged p)
  ∧ Port.to_dict p !! "tagged" = present (Port.tagged p).
Proof.
  intros H. unfold Port.to_dict. rewrite H. cbv zeta.
  repeat apply conj;
    rewrite ?put_if_lookup_ne by done;
    (rewrite put_if_lookup; [done|]);
    rewrite ?put_if_lookup_ne by done;
    by apply lookup_singleton_ne.
Qed.

(** A record that is not uninteresting never gives a clean port. *)
Lemma load_from_netbox_interesting (w : World) (nb : Netbox.t) (o : json)
    (log log' : list string) (p : Port.t) :
  Port.load_from_netbox w nb o log = (Ok p, log') →
  Port.uninteresting o = Ok false → Port.clean p = false.
Proof.
  intros H Hc.
  destruct (load_from_netbox_Ok _ _ _ _ _ _ H)
    as [(Hc' & _)|(_ & d & e & l & q1 & q2 & m & _ & _ & _ & Hq1 & Hq2 & _ & ->)];
    [congruence|].
  destruct (set_mtu_fields m q2) as (_ & -> & _).
  apply load_mode_and_vlans_frame in Hq2 as (_ & -> & _).
  destruct (truthy l).
  - apply load_lag_Ok in Hq1 as (? & ? & ? & ? & _ & _ & _ & _ & Hq1).
    by apply load_mode_and_vlans_frame in Hq1 as (_ & -> & _).
  - by simplify_eq.
Qed.

(** ** Relevance filter *)

(** C1: a record whose connected-endpoint type is null and whose declared
    type is not "lag" normalises to exactly the document {clean: true}, with
    no read issued; and the serialised form of any port whose [clean] is true
    is that one-field document, so [shutdown], [type], [descr], [mtu], [lag],
    [lagmode], [untagged] and [tagged] are all absent from it. *)
Theorem clean_port_has_only_clean :
  (∀ (w : World) (nb : Netbox.t) (o ty v : json) (log : list string),
      getitem o "connected_endpoint_type" = Ok JNull →
      getitem o "type" = Ok ty →
      getitem ty "value" = Ok v →
      v ≠ JStr "lag" →
      ∃ p, Port.load_from_netbox w nb o log = (Ok p, log)
           ∧ Port.to_dict p = {[ "clean" := JBool true ]})
  ∧ (∀ p : Port.t,
       Port.clean p = true → Port.to_dict p = {[ "clean" := JBool true ]})
  ∧ (∀ p : Port.t,
       Port.to_dict p !! "clean" = Some (JBool true) →
       dom (Port.to_dict p) = {[ "clean" ]}).
Proof.
  split; [|split].
  - intros w nb o ty v log Hcet Hty Hv Hlag.
    exists (Port.set_clean true Port.init). split; [|done].
    apply load_from_netbox_clean.
    unfold Port.uninteresting. unbind. rewrite Hcet. simpl. rewrite Hty, Hv.
    by rewrite eq_str_false.
  - apply to_dict_clean.
  - intros p H. destruct (Port.clean p) eqn:Hc.
    + rewrite to_dict_clean by done. by rewrite dom_singleton_L.
    + apply to_dict_shutdown in Hc as [_ Hc]. congruence.
Qed.

Lemma clean_port_has_only_clean_idle :
  ∃ p, Port.load_from_netbox (serving []) nb0 idle_port [] = (Ok p, [])
       ∧ Port.to_dict p = {[ "clean" := JBool true ]}.
Proof.
  apply (proj1 clean_port_has_only_clean (serving []) nb0 idle_port
           (JObj {[ "value" := JStr "1000base-t" ]}) (JStr "1000base-t") []);
    [reflexivity | reflexivity | reflexivity | discriminate].
Defined.

(** A LAG interface with no description never gets past the description
    step: its endpoint type, null, is none of the kinds that step knows. *)
Lemma lag_without_description (w : World) (nb : Netbox.t) (o ty d : json)
    (log : list string) :
  getitem o "connected_endpoint_type" = Ok JNull →
  getitem o "type" = Ok ty → getitem ty "value" = Ok (JStr "lag") →
  getitem o "description" = Ok d → truthy d = false →
  Port.load_from_netbox w nb o log
  = (Raise (AssertionError "Unknown connected_endpoint_type: " (Some JNull)), log).
Proof.
  intros Hcet Hty Hv Hd Hd'.
  unfold Port.load_from_netbox, Port.uninteresting, Port.description. unbind.
  by rewrite Hcet; simpl; rewrite Hty, Hv; simpl; rewrite Hd, Hd'.
Qed.

(** C2: on the record of a LAG interface with mode null, connected-endpoint
    type null and no description, LAG parent, VLAN reference or MTU,
    normalisation does not return a port: the description step raises
    "Unknown connected_endpoint_type".  With a description, the same record
    gives a port that is not clean and serialises to [shutdown] and [descr]
    only. *)
Theorem bare_lag_raises :
  ∀ (w : World) (nb : Netbox.t) (log : list string),
    Port.load_from_netbox w nb bare_lag log
    = (Raise (AssertionError "Unknown connected_endpoint_type: " (Some JNull)), log)
    ∧ ∃ p, Port.load_from_netbox w nb
             (JObj (<["description" := JStr "po1"]> bare_lag_fields)) log
           = (Ok p, log)
           ∧ Port.to_dict p
             = {[ "shutdown" := JBool false; "descr" := JStr "po1" ]}.
Proof.
  intros w nb log. split.
  - by apply (lag_without_description w nb bare_lag
                (JObj {[ "value" := JStr "lag" ]}) (JStr "")).
  - eexists. split; [reflexivity|]. vm_compute. reflexivity.
Qed.

(** ** Shutdown *)

(** C7, as the code has it: for a record that is not left clean, [shutdown]
    is the value of [enabled == False], which is true for false and for the
    number zero and false for every other value; it is [not enabled] whenever
    [enabled] is a boolean, and false when [enabled] is null. *)
Theorem shutdown_is_enabled_eq_False :
  ∀ (w : World) (nb : Netbox.t) (o : json) (log log' : list string) (p : Port.t),
    Port.load_from_netbox w nb o log = (Ok p, log') →
    Port.clean p = false →
    ∃ e, getitem o "enabled" = Ok e
      ∧ Port.shutdown p = eq_False e
      ∧ Port.to_dict p !! "shutdown" = Some (JBool (eq_False e))
      ∧ (∀ b, e = JBool b → Port.shutdown p = py_not e)
      ∧ (e = JNull → Port.shutdown p = false).
Proof.
  intros w nb o log log' p H Hc.
  destruct (load_from_netbox_Ok _ _ _ _ _ _ H)
    as [(_ & -> & _)|(_ & d & e & l & q1 & q2 & m & Hd & He & Hl & Hq1 & Hq2 & Hm & ->)];
    [done|].
  assert (Port.shutdown q1 = eq_False e) as Hs1.
  { destruct (truthy l).
    - apply load_lag_Ok in Hq1 as (? & ? & ? & ? & _ & _ & _ & _ & Hq1).
      by apply load_mode_and_vlans_frame in Hq1 as (-> & _).
    - by simplify_eq. }
  apply load_mode_and_vlans_frame in Hq2 as (Hs2 & _).
  destruct (set_mtu_fields m q2) as (Hs3 & _). cbv zeta in Hs3.
  assert (Port.shutdown (if truthy m then Port.set_mtu m q2 else q2) = eq_False e)
    as Hs by congruence.
  exists e. split; [done|]. split; [done|]. split.
  { apply to_dict_shutdown in Hc as [-> _]. by rewrite Hs. }
  split.
  - intros b ->. rewrite Hs. done.
  - intros ->. rewrite Hs. done.
Qed.

Lemma shutdown_is_enabled_eq_False_trunk :
  ∃ e, getitem trunk_all "enabled" = Ok e
    ∧ Port.shutdown trunk_all_port = eq_False e
    ∧ Port.to_dict trunk_all_port !! "shutdown" = Some (JBool (eq_False e))
    ∧ (∀ b, e = JBool b → Port.shutdown trunk_all_port = py_not e)
    ∧ (e = JNull → Port.shutdown trunk_all_port = false).
Proof.
  apply (shutdown_is_enabled_eq_False (serving []) nb0 trunk_all [] []
           trunk_all_port); reflexivity.
Defined.

(** On a record whose [enabled] is null the port is not shut down, although
    [not enabled] is true. *)
Lemma shutdown_of_null_enabled :
  ∃ p, Port.load_from_netbox (serving []) nb0 null_enabled [] = (Ok p, [])
       ∧ Port.clean p = false
       ∧ getitem null_enabled "enabled" = Ok JNull
       ∧ Port.to_dict p !! "shutdown" = Some (JBool false)
       ∧ py_not JNull = true.
Proof. eexists. repeat split. Qed.

(** ** Switchport mode *)

Lemma set_mode_value (q : Port.t) (o mode v : json) :
  getitem o "mode" = Ok mode → getitem mode "value" = Ok v →
  Port.set_mode q o =
    if eq_str v "access" then Ok (Port.set_type (JStr "access") q)
    else if eq_str v "tagged" then Ok (Port.set_type (JStr "trunk") q)
    else if eq_str v "tagged-all" then Ok (all_vlans q)
    else Raise (AssertionError "Unknown mode: " (Some v)).
Proof.
  intros Hm Hv. unfold Port.set_mode. unbind.
  by rewrite Hm, (getitem_Ok_truthy _ _ _ Hv), Hv.
Qed.

(** C4: on a record whose mode carries the value [v], the method maps
    "access" to type "access", "tagged" to type "trunk", and "tagged-all" to
    type "trunk" with untagged 1 and tagged "all", before the VLAN references
    of the record are applied; any other value raises "Unknown mode".  The
    VLAN step leaves the type alone, and an untagged VLAN reference on the
    record replaces the 1 of the tagged-all branch.  The same holds of the
    port a successful normalisation of the record returns. *)
Theorem mode_mapping :
  ∀ (q : Port.t) (o mode v : json),
    getitem o "mode" = Ok mode →
    getitem mode "value" = Ok v →
    (v = JStr "access" →
       Port.__load_mode_and_vlans q o
       = Port.set_vlans (Port.set_type (JStr "access") q) o)
    ∧ (v = JStr "tagged" →
       Port.__load_mode_and_vlans q o
       = Port.set_vlans (Port.set_type (JStr "trunk") q) o)
    ∧ (v = JStr "tagged-all" →
       Port.__load_mode_and_vlans q o = Port.set_vlans (all_vlans q) o)
    ∧ (v ≠ JStr "access" → v ≠ JStr "tagged" → v ≠ JStr "tagged-all" →
       Port.__load_mode_and_vlans q o
       = Raise (AssertionError "Unknown mode: " (Some v)))
    ∧ (∀ (q' : Port.t) (u tv : json),
         getitem o "untagged_vlan" = Ok u → truthy u = false →
         getitem o "tagged_vlans" = Ok tv → truthy tv = false →
         Port.set_vlans q' o = Ok q')
    ∧ (v = JStr "tagged-all" →
       ∀ u vid tv : json,
         getitem o "untagged_vlan" = Ok u → getitem u "vid" = Ok vid →
         getitem o "tagged_vlans" = Ok tv → truthy tv = false →
         Port.__load_mode_and_vlans q o
         = Ok (Port.set_untagged vid (all_vlans q)))
    ∧ (∀ (w : World) (nb : Netbox.t) (log log' : list string) (p : Port.t),
         Port.load_from_netbox w nb o log = (Ok p, log') →
         Port.clean p = false →
         (v = JStr "access" →
            Port.type p = JStr "access"
            ∧ Port.to_dict p !! "type" = Some (JStr "access"))
         ∧ (v = JStr "tagged" →
            Port.type p = JStr "trunk"
            ∧ Port.to_dict p !! "type" = Some (JStr "trunk"))
         ∧ (v = JStr "tagged-all" →
            (Port.type p = JStr "trunk"
             ∧ Port.to_dict p !! "type" = Some (JStr "trunk"))
            ∧ (∀ u, getitem o "untagged_vlan" = Ok u →
                 if truthy u then getitem u "vid" = Ok (Port.untagged p)
                 else Port.untagged p = JInt 1
                      ∧ Port.to_dict p !! "untagged" = Some (JInt 1))
            ∧ (∀ tv, getitem o "tagged_vlans" = Ok tv → truthy tv = false →
                 Port.tagged p = JStr "all"
                 ∧ Port.to_dict p !! "tagged" = Some (JStr "all")))
         ∧ (v = JStr "access" ∨ v = JStr "tagged" ∨ v = JStr "tagged-all")).
Proof.
  intros q o mode v Hm Hv.
  assert (∀ q0, Port.__load_mode_and_vlans q0 o =
            match (if eq_str v "access" then Ok (Port.set_type (JStr "access") q0)
                   else if eq_str v "tagged" then Ok (Port.set_type (JStr "trunk") q0)
                   else if eq_str v "tagged-all" then Ok (all_vlans q0)
                   else Raise (AssertionError "Unknown mode: " (Some v))) with
            | Ok q1 => Port.set_vlans q1 o
            | Raise e => Raise e
            end) as Hlmv.
  { intros q0. unfold Port.__load_mode_and_vlans. unbind.
    by rewrite (set_mode_value q0 o mode v Hm Hv). }
  repeat apply conj.
  - intros ->. by rewrite Hlmv.
  - intros ->. by rewrite Hlmv.
  - intros ->. by rewrite Hlmv.
  - intros H1 H2 H3. rewrite Hlmv. by rewrite !eq_str_false.
  - intros q' u tv. apply set_vlans_none.
  - intros -> u vid tv Hu Hvid Ht Ht'. rewrite Hlmv. simpl.
    unfold Port.set_vlans. unbind.
    by rewrite Hu, (getitem_Ok_truthy _ _ _ Hvid), Hvid, Ht, Ht'.
  - intros w nb log log' p H Hc.
    destruct (load_from_netbox_Ok _ _ _ _ _ _ H)
      as [(_ & -> & _)|(_ & d & e & l & q1 & q2 & m & _ & _ & _ & _ & Hq2 & _ & ->)];
      [done|].
    rewrite Hlmv in Hq2.
    destruct (to_dict_fields _ Hc) as (-> & _ & _ & _ & _ & -> & ->).
    destruct (set_mtu_fields m q2) as (_ & _ & Hty & _ & _ & _ & Hun & Hta).
    cbv zeta in Hty, Hun, Hta. rewrite Hty, Hun, Hta. clear Hty Hun Hta.
    repeat apply conj.
    + intros ->. simpl in Hq2.
      apply set_vlans_frame in Hq2 as (_ & _ & -> & _). done.
    + intros ->. simpl in Hq2.
      apply set_vlans_frame in Hq2 as (_ & _ & -> & _). done.
    + intros ->. simpl in Hq2.
      assert (Port.type q2 = JStr "trunk") as Hty.
      { apply set_vlans_frame in Hq2 as (_ & _ & -> & _). done. }
      repeat apply conj; try (by rewrite Hty).
      * intros u Hu. destruct (truthy u) eqn:Htu.
        -- by eapply set_vlans_untagged.
        -- by rewrite (set_vlans_untagged_kept _ _ _ _ Hu Htu Hq2).
      * intros tv Ht Ht'.
        by rewrite (set_vlans_tagged_kept _ _ _ _ Ht Ht' Hq2).
    + destruct (eq_str v "access") eqn:E1; [apply eq_str_true in E1; auto|].
      destruct (eq_str v "tagged") eqn:E2; [apply eq_str_true in E2; auto|].
      destruct (eq_str v "tagged-all") eqn:E3; [apply eq_str_true in E3; auto|].
      discriminate.
Qed.

Lemma mode_mapping_trunk_all :
  Port.__load_mode_and_vlans Port.init trunk_all
  = Ok (Port.set_untagged (JInt 5) (all_vlans Port.init)).
Proof.
  destruct (mode_mapping Port.init trunk_all
              (JObj {[ "value" := JStr "tagged-all" ]}) (JStr "tagged-all")
              eq_refl eq_refl) as (_ & _ & _ & _ & _ & H & _).
  apply (H eq_refl (JObj {[ "vid" := JInt 5 ]}) (JInt 5) (JList []));
    reflexivity.
Defined.

(** ** Integer conversion of decimal text *)

Lemma digit_not_space (a : ascii) (d : Z) : digit a = Some d → is_space a = false.
Proof.
  destruct a as [[] [] [] [] [] [] [] []]; vm_compute; congruence.
Qed.

Lemma digit_not_sign (a : ascii) (d : Z) :
  digit a = Some d → Ascii.eqb a "+" = false ∧ Ascii.eqb a "-" = false.
Proof.
  destruct a as [[] [] [] [] [] [] [] []]; vm_compute; intuition congruence.
Qed.

Lemma lstrip_digit_string (s : string) : digit_string s = true → lstrip s = s.
Proof.
  destruct s as [|a r]; [done|]. simpl.
  destruct (digit a) as [d|] eqn:Hd; [|done]. intros _.
  by rewrite (digit_not_space a d).
Qed.

Lemma rstrip_digit_string (s : string) : digit_string s = true → rstrip s = s.
Proof.
  induction s as [|a r IH]; [done|]. simpl.
  destruct (digit a) as [d|] eqn:Hd; [|done]. intros Hr.
  rewrite (IH Hr). destruct r; [|done].
  by rewrite (digit_not_space a d).
Qed.

Lemma digit_pretty_N_char (x : N) :
  (x < 10)%N → digit (pretty_N_char x) = Some (Z.of_N x).
Proof.
  intros H.
  assert (x = 0 ∨ x = 1 ∨ x = 2 ∨ x = 3 ∨ x = 4 ∨ x = 5 ∨ x = 6 ∨ x = 7
          ∨ x = 8 ∨ x = 9)%N as Hx by lia.
  repeat (destruct Hx as [->|Hx]; [reflexivity|]). by subst.
Qed.

Lemma digit_string_pretty_N_go (x : N) (s : string) :
  digit_string s = true → digit_string (pretty_N_go x s) = true.
Proof.
  revert s. induction (N.lt_wf_0 x) as [x _ IH]. intros s Hs.
  destruct (decide (x = 0)%N) as [->|Hx]; [done|].
  rewrite pretty_N_go_step by lia.
  apply IH; [apply N.div_lt; lia|].
  simpl. rewrite digit_pretty_N_char by (apply N.mod_lt; lia). done.
Qed.

(** Reading back the digits written in front of [s] continues from the
    number they denote. *)
Lemma digits_pretty_N_go (x : N) (s : string) :
  ∃ k : Z, (0 ≤ k)%Z ∧ ∀ acc : Z,
    digits acc (pretty_N_go x s) = digits (acc * 10 ^ k + Z.of_N x)%Z s.
Proof.
  revert s. induction (N.lt_wf_0 x) as [x _ IH]. intros s.
  destruct (decide (x = 0)%N) as [->|Hx].
  { exists 0%Z. split; [done|]. intros acc. rewrite pretty_N_go_0. f_equal. lia. }
  rewrite pretty_N_go_step by lia.
  destruct (IH (x `div` 10)%N (N.div_lt x 10 ltac:(lia) ltac:(lia))
              (String (pretty_N_char (x `mod` 10)) s)) as (k & Hk & IHk).
  exists (k + 1)%Z. split; [lia|]. intros acc.
  rewrite IHk. simpl.
  rewrite digit_pretty_N_char by (apply N.mod_lt; lia).
  f_equal. rewrite Z.pow_add_r by lia.
  pose proof (N.div_mod x 10 ltac:(lia)) as Hdm.
  rewrite N2Z.inj_div, N2Z.inj_mod.
  pose proof (Z.div_mod (Z.of_N x) 10 ltac:(lia)). simpl (Z.of_N 10). lia.
Qed.

Lemma digit_plain_char (a : ascii) (d : Z) : digit a = Some d → plain_char a = true.
Proof.
  destruct a as [[] [] [] [] [] [] [] []]; vm_compute; congruence.
Qed.

Lemma digit_string_plain_chars (s : string) :
  digit_string s = true → plain_chars s = true.
Proof.
  induction s as [|a r IH]; [done|]. simpl.
  destruct (digit a) as [d|] eqn:Hd; [|done]. intros Hr.
  by rewrite (digit_plain_char a d), IH.
Qed.

Lemma digit_string_pretty (n : N) : digit_string (pretty n) = true.
Proof.
  unfold pretty, pretty_N. case_decide; [done|].
  by apply digit_string_pretty_N_go.
Qed.

(** On plain text [int] reads back what [str] writes for a natural
    number. *)
Lemma int_plain_pretty (n : N) : int_plain (pretty n) = Ok (Z.of_N n).
Proof.
  pose proof (digit_string_pretty n) as Hds.
  assert (digits 0 (pretty n) = Some (Z.of_N n)) as Hval.
  { unfold pretty, pretty_N. case_decide as Hn; [by subst|].
    destruct (digits_pretty_N_go n "") as (k & _ & ->). simpl; f_equal; lia. }
  unfold int_plain.
  rewrite (lstrip_digit_string _ Hds), (rstrip_digit_string _ Hds).
  destruct (pretty n) as [|a r] eqn:Hp.
  { exfalso. revert Hp. unfold pretty, pretty_N. case_decide as Hn; [done|].
    rewrite pretty_N_go_step by lia. intros Hp.
    pose proof (digits_pretty_N_go (n `div` 10)
                  (String (pretty_N_char (n `mod` 10)) "")) as (k & _ & Hk).
    specialize (Hk 0%Z). rewrite Hp in Hk. simpl in Hk.
    rewrite digit_pretty_N_char in Hk by (apply N.mod_lt; lia).
    simpl in Hk. injection Hk as Hk.
    pose proof (N.div_mod n 10 ltac:(lia)).
    rewrite N2Z.inj_div, N2Z.inj_mod in Hk. simpl (Z.of_N 10) in Hk.
    pose proof (Z.div_mod (Z.of_N n) 10 ltac:(lia)). lia. }
  simpl in Hds. destruct (digit a) as [d|] eqn:Hd; [|done].
  destruct (digit_not_sign a d Hd) as [-> ->].
  by rewrite Hval.
Qed.

(** [int] reads back what [str] writes for a natural number of at most 4300
    digits. *)
Lemma py_int_pretty (w : World) (n : N) :
  (String.length (pretty n) ≤ 4300)%nat → py_int w (pretty n) = Ok (Z.of_N n).
Proof.
  intros Hlen. unfold py_int, plain.
  rewrite (digit_string_plain_chars _ (digit_string_pretty n)).
  rewrite (proj2 (Nat.leb_le _ _) Hlen). apply int_plain_pretty.
Qed.

Lemma startswith_prefix (p s : string) : startswith (p +:+ s) p = true.
Proof.
  unfold startswith. induction p as [|a p IH]; simpl.
  - by destruct s.
  - destruct (ascii_dec a a); [done|congruence].
Qed.

Lemma drop_chars_prefix (p s : string) :
  drop_chars (String.length p) (p +:+ s) = s.
Proof. induction p as [|a p IH]; simpl; [by destruct s | done]. Qed.

(** ** Link aggregation *)

Example member_port_loads :
  Port.load_from_netbox lag_world nb0 member_port []
  = (Ok member_port_normalised, ["http://nb/api/dcim/interfaces/7"]).
Proof. vm_compute. reflexivity. Qed.

(** On plain text a failed integer conversion is a [ValueError] that
    reports the text it was given. *)
Lemma py_int_Raise (w : World) (s : string) (err : exn) :
  plain s = true → py_int w s = Raise err → err = ValueError s.
Proof.
  unfold py_int, int_plain. intros ->.
  destruct (match rstrip (lstrip s) with
            | "" => (false, rstrip (lstrip s))
            | String a r => _
            end) as [neg body].
  destruct body; [congruence|].
  destruct (digits 0 _); congruence.
Qed.

(** What the LAG step makes of the parent's name, for a record that reaches
    it with a parent named [name]: a name that does not start with
    "Port-channel" fails with the parse error; a name that does is cut after
    the prefix and the rest converted to an integer, so a rest the conversion
    rejects fails with the conversion's error, and a rest it accepts, in
    particular the decimal writing of a number N, gives lag = N and
    lagmode = "active" on every port the normalisation returns. *)
Lemma lag_parent_name :
  ∀ (w : World) (nb : Netbox.t) (o d e l : json) (name : string)
    (log : list string),
    Port.uninteresting o = Ok false →
    Port.description w o = Ok d →
    getitem o "enabled" = Ok e →
    getitem o "lag" = Ok l →
    truthy l = true →
    getitem l "name" = Ok (JStr name) →
    (startswith name "Port-channel" = false →
       Port.load_from_netbox w nb o log = (Raise parse_error, log))
    ∧ (∀ (rest : string) (err : exn),
         name = "Port-channel" +:+ rest → py_int w rest = Raise err →
         Port.load_from_netbox w nb o log = (Raise err, log))
    ∧ (∀ (rest : string) (n : Z) (p : Port.t) (log' : list string),
         name = "Port-channel" +:+ rest → py_int w rest = Ok n →
         Port.load_from_netbox w nb o log = (Ok p, log') →
         Port.lag p = JInt n ∧ Port.lagmode p = JStr "active")
    ∧ (∀ (p : Port.t) (log' : list string),
         Port.load_from_netbox w nb o log = (Ok p, log') →
         Port.to_dict p !! "lag" = present (Port.lag p)
         ∧ Port.to_dict p !! "lagmode" = present (Port.lagmode p))
    ∧ (∀ (N : N) (p : Port.t) (log' : list string),
         name = "Port-channel" +:+ pretty N →
         (String.length (pretty N) ≤ 4300)%nat →
         Port.load_from_netbox w nb o log = (Ok p, log') →
         Port.lag p = JInt (Z.of_N N) ∧ Port.lagmode p = JStr "active").
Proof.
  intros w nb o d e l name log Hc Hd He Hl Htl Hname.
  assert (∀ rest n p log',
            name = "Port-channel" +:+ rest → py_int w rest = Ok n →
            Port.load_from_netbox w nb o log = (Ok p, log') →
            Port.lag p = JInt n ∧ Port.lagmode p = JStr "active") as Hnum.
  { intros rest n p log' -> Hint H.
    destruct (load_from_netbox_Ok _ _ _ _ _ _ H)
      as [(Hc' & _)|(_ & d' & e' & l' & q1 & q2 & m & Hd' & He' & Hl' & Hq1 & Hq2 & _ & ->)];
      [congruence|].
    assert (l' = l) as -> by congruence. rewrite Htl in Hq1.
    apply load_lag_Ok in Hq1 as (name' & n' & id & parent & Hn' & Hnum & _ & _ & Hq1).
    assert (name' = JStr ("Port-channel" +:+ rest)) as -> by congruence.
    unfold Port.lag_number in Hnum.
    rewrite (startswith_prefix "Port-channel" rest) in Hnum.
    change 12%nat with (String.length "Port-channel") in Hnum.
    rewrite drop_chars_prefix in Hnum.
    assert (n' = n) as -> by congruence.
    apply load_mode_and_vlans_frame in Hq1 as (_ & _ & _ & _ & Hlag1 & Hmode1).
    apply load_mode_and_vlans_frame in Hq2 as (_ & _ & _ & _ & Hlag2 & Hmode2).
    destruct (set_mtu_fields m q2) as (_ & _ & _ & _ & -> & -> & _).
    rewrite Hlag2, Hmode2, Hlag1, Hmode1. done. }
  repeat apply conj.
  - intros Hpre.
    rewrite (load_from_netbox_steps w nb o d e l log Hc Hd He Hl), Htl.
    unfold Port.load_lag, Port.lag_number. unbind. by rewrite Hname, Hpre.
  - intros rest err -> Hint.
    rewrite (load_from_netbox_steps w nb o d e l log Hc Hd He Hl), Htl.
    unfold Port.load_lag, Port.lag_number. unbind. rewrite Hname.
    rewrite (startswith_prefix "Port-channel" rest).
    change 12%nat with (String.length "Port-channel").
    by rewrite drop_chars_prefix, Hint.
  - exact Hnum.
  - intros p log' H.
    pose proof (load_from_netbox_interesting _ _ _ _ _ _ H Hc) as Hnc.
    by destruct (to_dict_fields _ Hnc) as (_ & _ & _ & -> & -> & _).
  - intros N p log' HN Hlen H.
    apply (Hnum (pretty N) (Z.of_N N) p log' HN); [|done].
    by apply py_int_pretty.
Qed.

Example lag_parent_name_member :
  Port.lag member_port_normalised = JInt 3
  ∧ Port.lagmode member_port_normalised = JStr "active".
Proof.
  apply (proj2 (proj2 (proj2 (proj2
           (lag_parent_name lag_world nb0 member_port (JStr "server")
              (JBool true)
              (JObj {[ "id" := JInt 7; "name" := JStr "Port-channel3" ]})
              "Port-channel3" []
              eq_refl eq_refl eq_refl eq_refl eq_refl eq_refl))))
           3%N member_port_normalised ["http://nb/api/dcim/interfaces/7"]).
  - reflexivity.
  - vm_compute. lia.
  - vm_compute. reflexivity.
Qed.

(** C5: a parent name that has the prefix "Port-channel" but no number
    after it does not end in the parse error of line 139.  The test of
    line 136 looks at the prefix only and the rest goes to [int] unguarded,
    so with nothing after the prefix, or with a letter, normalisation raises
    the [ValueError] of [int]; the same holds of every rest that [int]
    rejects, and on plain text that error is never the parse error.  Only a
    name without the prefix raises the parse error. *)
Theorem lag_suffix_raises_ValueError :
  ∀ (w : World) (nb : Netbox.t) (log : list string),
    Port.load_from_netbox w nb (member_under "Port-channel") log
    = (Raise (ValueError ""), log)
    ∧ Port.load_from_netbox w nb (member_under "Port-channelX") log
      = (Raise (ValueError "X"), log)
    ∧ ValueError "" ≠ parse_error
    ∧ ValueError "X" ≠ parse_error
    ∧ Port.load_from_netbox w nb (member_under "Po3") log
      = (Raise parse_error, log)
    ∧ (∀ (rest : string) (err : exn),
         py_int w rest = Raise err →
         Port.load_from_netbox w nb (member_under ("Port-channel" +:+ rest)) log
         = (Raise err, log)
         ∧ (plain rest = true → err = ValueError rest ∧ err ≠ parse_error)).
Proof.
  intros w nb log. repeat apply conj;
    [vm_compute; reflexivity | vm_compute; reflexivity | discriminate
    | discriminate | vm_compute; reflexivity |].
  intros rest err Hint. split.
  - refine (proj1 (proj2
             (lag_parent_name w nb (member_under ("Port-channel" +:+ rest))
                (JStr "server") (JBool true)
                (JObj {[ "id" := JInt 7;
                         "name" := JStr ("Port-channel" +:+ rest) ]})
                ("Port-channel" +:+ rest) log _ _ _ _ _ _)) rest err eq_refl Hint);
      vm_compute; reflexivity.
  - intros Hplain. rewrite (py_int_Raise w rest err Hplain Hint).
    split; [done|discriminate].
Qed.

(** A parent named "Port-channel", with nothing after the prefix, makes the
    integer conversion fail: the error is its ValueError, not the parse
    error. *)
Example unnumbered_parent_raises_ValueError :
  Port.load_from_netbox lag_world nb0 member_of_unnumbered []
  = (Raise (ValueError ""), [])
  ∧ startswith "Port-channel" "Port-channel" = true
  ∧ ValueError "" ≠ parse_error.
Proof. split; [vm_compute; reflexivity|]. split; [reflexivity|discriminate]. Qed.

(** The integer conversion drops white space, so a number written after a
    space is accepted just as well. *)
Example spaced_parent_number_accepted :
  Port.load_from_netbox lag_world nb0 member_of_spaced []
  = (Ok member_port_normalised, ["http://nb/api/dcim/interfaces/7"]).
Proof. vm_compute. reflexivity. Qed.


Lemma load_mode_and_vlans_Ok (q q2 : Port.t) (o : json) :
  Port.__load_mode_and_vlans q o = Ok q2 →
  ∃ q1, Port.set_mode q o = Ok q1 ∧ Port.set_vlans q1 o = Ok q2.
Proof.
  unfold Port.__load_mode_and_vlans. unbind.
  destruct (Port.set_mode q o) as [q1|]; [eauto|discriminate].
Qed.



(** ** Description *)

(** Normalisation reads the connected endpoint in the description step
    only: two records that agree on every other field and have the same
    description step are normalised alike. *)
Lemma load_from_netbox_except_endpoint (w : World) (nb : Netbox.t)
    (m : gmap string json) (x : json) (log : list string) :
  Port.description w (JObj (<["connected_endpoint" := x]> m))
  = Port.description w (JObj m) →
  Port.load_from_netbox w nb (JObj (<["connected_endpoint" := x]> m)) log
  = Port.load_from_netbox w nb (JObj m) log.
Proof.
  intros Hd. unfold Port.load_from_netbox. rewrite Hd.
  unfold Port.uninteresting, Port.__load_mode_and_vlans, Port.set_mode,
    Port.set_vlans.
  by rewrite !(getitem_insert_ne m _ "connected_endpoint" x) by done.
Qed.

(** C8: a true (non-empty) description is the derived [descr], and then
    neither the description step nor the normalisation as a whole depends on
    the connected endpoint, which may be replaced or removed.  With an empty
    description, a "dcim.interface" endpoint gives the remote device's name,
    a colon and the remote interface's name; a "circuits.circuittermination"
    endpoint gives the circuit identifier; every other endpoint type raises
    "Unknown connected_endpoint_type", and so does the normalisation of a
    record that is not left clean. *)
Theorem description_derivation :
  (∀ (w : World) (o d : json),
      getitem o "description" = Ok d → truthy d = true →
      Port.description w o = Ok d)
  ∧ (∀ (w : World) (nb : Netbox.t) (m : gmap string json) (d x : json)
       (log : list string),
       m !! "description" = Some d → truthy d = true →
       Port.description w (JObj (<["connected_endpoint" := x]> m)) = Ok d
       ∧ Port.description w (JObj (delete "connected_endpoint" m)) = Ok d
       ∧ Port.load_from_netbox w nb (JObj (<["connected_endpoint" := x]> m)) log
         = Port.load_from_netbox w nb (JObj m) log)
  ∧ (∀ (w : World) (o d ce dev dname iname : json),
       getitem o "description" = Ok d → truthy d = false →
       getitem o "connected_endpoint_type" = Ok (JStr "dcim.interface") →
       getitem o "connected_endpoint" = Ok ce →
       getitem ce "device" = Ok dev → getitem dev "name" = Ok dname →
       getitem ce "name" = Ok iname →
       Port.description w o
       = Ok (JStr (py_str w dname +:+ ":" +:+ py_str w iname)))
  ∧ (∀ (w : World) (o d ce circuit cid : json),
       getitem o "description" = Ok d → truthy d = false →
       getitem o "connected_endpoint_type"
       = Ok (JStr "circuits.circuittermination") →
       getitem o "connected_endpoint" = Ok ce →
       getitem ce "circuit" = Ok circuit → getitem circuit "cid" = Ok cid →
       Port.description w o = Ok (JStr (py_str w cid)))
  ∧ (∀ (w : World) (s : string), py_str w (JStr s) = s)
  ∧ (∀ (w : World) (nb : Netbox.t) (o d cet : json) (log : list string),
       getitem o "description" = Ok d → truthy d = false →
       getitem o "connected_endpoint_type" = Ok cet →
       cet ≠ JStr "dcim.interface" →
       cet ≠ JStr "circuits.circuittermination" →
       Port.description w o = Raise (unknown_endpoint cet)
       ∧ (Port.uninteresting o = Ok false →
          Port.load_from_netbox w nb o log = (Raise (unknown_endpoint cet), log)))
  ∧ (∀ (w : World) (nb : Netbox.t) (o : json) (log log' : list string)
       (p : Port.t),
       Port.load_from_netbox w nb o log = (Ok p, log') →
       Port.clean p = false →
       Port.description w o = Ok (Port.descr p)).
Proof.
  assert (∀ w o d, getitem o "description" = Ok d → truthy d = true →
                   Port.description w o = Ok d) as Hown.
  { intros w o d Hd Ht. unfold Port.description. unbind. by rewrite Hd, Ht. }
  repeat apply conj.
  - exact Hown.
  - intros w nb m d x log Hd Ht.
    assert (Port.description w (JObj (<["connected_endpoint" := x]> m)) = Ok d)
      as Hins.
    { apply Hown; [|done]. by rewrite getitem_insert_ne; [simpl; rewrite Hd|]. }
    repeat apply conj.
    + done.
    + apply Hown; [|done]. by rewrite getitem_delete_ne; [simpl; rewrite Hd|].
    + apply load_from_netbox_except_endpoint. rewrite Hins. symmetry.
      apply Hown; [|done]. simpl. by rewrite Hd.
  - intros w o d ce dev dname iname Hd Ht Hcet Hce Hdev Hdn Hin.
    unfold Port.description. unbind.
    by rewrite Hd, Ht, Hcet, Hce, Hdev, Hdn, Hin.
  - intros w o d ce circuit cid Hd Ht Hcet Hce Hci Hcid.
    unfold Port.description. unbind.
    by rewrite Hd, Ht, Hcet, Hce, Hci, Hcid.
  - done.
  - intros w nb o d cet log Hd Ht Hcet Hn1 Hn2.
    assert (Port.description w o = Raise (unknown_endpoint cet)) as Hraise.
    { unfold Port.description. unbind.
      by rewrite Hd, Ht, Hcet, !eq_str_false. }
    split; [done|]. intros Hc.
    unfold Port.load_from_netbox. unbind. by rewrite Hc, Hraise.
  - intros w nb o log log' p H Hc.
    destruct (load_from_netbox_Ok _ _ _ _ _ _ H)
      as [(_ & -> & _)|(_ & d & e & l & q1 & q2 & m & Hd & _ & _ & Hq1 & Hq2 & _ & ->)];
      [done|].
    rewrite Hd. f_equal.
    destruct (set_mtu_fields m q2) as (_ & _ & _ & -> & _).
    apply load_mode_and_vlans_frame in Hq2 as (_ & _ & -> & _).
    destruct (truthy l).
    + apply load_lag_Ok in Hq1 as (? & ? & ? & ? & _ & _ & _ & _ & Hq1).
      by apply load_mode_and_vlans_frame in Hq1 as (_ & _ & -> & _).
    + by simplify_eq.
Qed.

Lemma description_derivation_cabled :
  Port.description (serving []) cabled_port = Ok (JStr "core1:xe-0/0/1")
  ∧ Port.description (serving []) eth1 = Ok (JStr "uplink").
Proof.
  split.
  - apply (proj1 (proj2 (proj2 description_derivation)) (serving []) cabled_port
             (JStr "")
             (JObj {[ "name" := JStr "xe-0/0/1";
                      "device" := JObj {[ "name" := JStr "core1" ]} ]})
             (JObj {[ "name" := JStr "core1" ]}) (JStr "core1")
             (JStr "xe-0/0/1")); reflexivity.
  - apply (proj1 description_derivation (serving []) eth1 (JStr "uplink"));
      reflexivity.
Defined.

(** ** Device resolution *)

Lemma string_app_assoc (a b c : string) : (a +:+ b) +:+ c = a +:+ b +:+ c.
Proof.
  induction a as [|x a IH]; [done|].
  change (String x ((a +:+ b) +:+ c) = String x (a +:+ b +:+ c)).
  by rewrite IH.
Qed.

Lemma filter_devices (w : World) (nb : Netbox.t) (name : string)
    (log : list string) :
  Netbox.filter w nb Netbox.Devices [("name", JStr name)] 1000 log
  = (r ← http_get_json w (device_url nb name) (Netbox.headers nb);
     getitem r "results",
     (log ++ [device_url nb name])%list).
Proof.
  unfold Netbox.filter, Netbox.get. unbind.
  assert (Netbox.base_url nb +:+
          (Netbox.Devices +:+ "?" +:+
             String.concat "&"
               ((λ i : string * json, i.1 +:+ "=" +:+ py_str w i.2)
                  <$> Netbox.setitem [("name", JStr name)] "limit" (JInt 1000)))
          +:+ py_str w (JStr "")
          = device_url nb name) as ->.
  { unfold device_url. f_equal. simpl.
    change (String.concat "&" ["name" +:+ "=" +:+ name; "limit" +:+ "=" +:+ pretty 1000])
      with (("name=" +:+ name) +:+ "&limit=1000").
    change (Netbox.Devices +:+ "?" +:+ ("name=" +:+ name) +:+ "&limit=1000")
      with ("/dcim/devices/?name=" +:+ (name +:+ "&limit=1000")).
    by rewrite !string_app_assoc. }
  by destruct (http_get_json w (device_url nb name) (Netbox.headers nb)).
Qed.

(** The lookup issues exactly one read and never raises. *)
Lemma try_get_device_answer (w : World) (nb : Netbox.t) (name : string)
    (log : list string) :
  __try_get_device w nb name log
  = (Ok (lookup_answer w nb name), (log ++ [device_url nb name])%list).
Proof.
  unfold __try_get_device, lookup_answer.
  unfold try_except, mbind at 1 2, Py_bind. rewrite filter_devices.
  unbind.
  destruct (http_get_json w (device_url nb name) (Netbox.headers nb)) as [body|];
    [|done].
  destruct (getitem body "results") as [results|]; [|done].
  destruct (getitem0 results) as [device|]; [|done].
  by destruct (getitem device "id").
Qed.

Lemma get_device_id_answers (w : World) (nb : Netbox.t)
    (config : gmap string string) (name domain : string) (log : list string) :
  config !! "search_domain" = Some domain →
  _get_device_id w nb config name log =
    let full := name +:+ "." +:+ domain in
    if truthy (lookup_answer w nb name) then
      (Ok (lookup_answer w nb name), (log ++ [device_url nb name])%list)
    else if truthy (lookup_answer w nb full) then
      (Ok (lookup_answer w nb full),
       (log ++ [device_url nb name; device_url nb full])%list)
    else
      (Raise (not_found name full),
       (log ++ [device_url nb name; device_url nb full])%list).
Proof.
  intros Hd. unfold _get_device_id, config_get. rewrite Hd.
  unfold try_names. unfold mbind, Py_bind, lift, mret, Py_ret.
  rewrite try_get_device_answer.
  destruct (truthy (lookup_answer w nb name)); [done|].
  rewrite try_get_device_answer, <- app_assoc. simpl.
  by destruct (truthy (lookup_answer w nb (name +:+ "." +:+ domain))).
Qed.

Lemma given_nonempty (name : string) : name ≠ "" → given (Some name) = Some name.
Proof.
  intros H. unfold given. destruct (String.eqb name "") eqn:E; [|done].
  by apply String.eqb_eq in E.
Qed.

(** C6: the lookup of the bare name is tried first and, only when its answer
    is not a true identifier, the lookup of name.search_domain; the
    identifier of the first lookup that succeeds is returned, after one read
    or two; when neither succeeds the function raises "Device not found.
    Tried: name, name.search_domain", and [main] prints that message and
    exits with code 1. *)
Theorem device_resolution_order :
  ∀ (w : World) (config : gmap string string) (name domain : string),
    config !! "search_domain" = Some domain →
    let full := name +:+ "." +:+ domain in
    (∀ (nb : Netbox.t) (log : list string),
       (truthy (lookup_answer w nb name) = true →
          _get_device_id w nb config name log
          = (Ok (lookup_answer w nb name), (log ++ [device_url nb name])%list))
       ∧ (truthy (lookup_answer w nb name) = false →
          truthy (lookup_answer w nb full) = true →
          _get_device_id w nb config name log
          = (Ok (lookup_answer w nb full),
             (log ++ [device_url nb name; device_url nb full])%list))
       ∧ (truthy (lookup_answer w nb name) = false →
          truthy (lookup_answer w nb full) = false →
          _get_device_id w nb config name log
          = (Raise (AssertionError
                      ("Device not found. Tried: " +:+ name +:+ ", " +:+ full)
                      None),
             (log ++ [device_url nb name; device_url nb full])%list)))
    ∧ (∀ (options : Options) (api_url api_key : string),
         config !! "api_url" = Some api_url →
         config !! "api_key" = Some api_key →
         device options = Some name → name ≠ "" →
         let nb := Netbox.init api_url api_key in
         truthy (lookup_answer w nb name) = false →
         truthy (lookup_answer w nb full) = false →
         main w options config
         = (Exited ("Device not found. Tried: " +:+ name +:+ ", " +:+ full) 1,
            [device_url nb name; device_url nb full]))
    ∧ (∀ (nb : Netbox.t) (n : string) (body results dev id : json),
         http_get_json w (device_url nb n) (Netbox.headers nb) = Ok body →
         getitem body "results" = Ok results →
         getitem0 results = Ok dev →
         getitem dev "id" = Ok id →
         lookup_answer w nb n = id).
Proof.
  intros w config name domain Hd full.
  repeat apply conj.
  - intros nb log. repeat apply conj.
    + intros H1. by rewrite (get_device_id_answers _ _ _ _ domain), H1.
    + intros H1 H2. rewrite (get_device_id_answers _ _ _ _ domain) by done.
      cbv zeta. fold full. by rewrite H1, H2.
    + intros H1 H2. rewrite (get_device_id_answers _ _ _ _ domain) by done.
      cbv zeta. fold full. by rewrite H1, H2.
  - intros options api_url api_key Hu Hk Hdev Hne nb H1 H2.
    unfold main, main_body, config_get. rewrite Hu, Hk, Hdev.
    rewrite given_nonempty by done.
    unfold try_except, mbind, Py_bind, lift, mret, Py_ret.
    fold nb. rewrite (get_device_id_answers _ _ _ _ domain) by done.
    cbv zeta. fold full. by rewrite H1, H2.
  - intros nb n body results dev id Hb Hr Hdv Hid.
    unfold lookup_answer. unbind. by rewrite Hb, Hr, Hdv, Hid.
Qed.

Lemma device_resolution_order_sw1 :
  _get_device_id sw1_world nb0 config0 "sw1" []
  = (Ok (JInt 42),
     ["http://nb/api/dcim/devices/?name=sw1&limit=1000";
      "http://nb/api/dcim/devices/?name=sw1.example.org&limit=1000"]).
Proof.
  pose proof (proj1 (proj2 (proj1 (device_resolution_order sw1_world config0
                                     "sw1" "example.org" eq_refl) nb0 [])))
    as H.
  apply H; vm_compute; reflexivity.
Defined.

(** ** User export *)

(** C9: [get_users] always fails, but not with the error its source text
    names: evaluating [NotImplemented("--users not implemented yet")] raises
    TypeError, "'NotImplementedType' object is not callable", so no
    not-implemented error with the message is ever raised, and a run with
    [--users] ends on that TypeError. *)
Theorem get_users_raises_TypeError :
  ∀ (w : World) (nb : Netbox.t) (log : list string),
    get_users w nb log = (Raise not_callable, log)
    ∧ not_callable ≠ NotImplementedError "--users not implemented yet"
    ∧ main w users_only config0 = (Uncaught not_callable, []).
Proof. intros w nb log. repeat apply conj; [done | discriminate | done]. Qed.

(** ** Transport errors *)

(** With the inventory unreachable, both lookups of the device raise a
    transport error inside [__try_get_device]; the run ends with the
    device-not-found message and exit code 1, not with the transport error. *)
Lemma unreachable_inventory_reports_not_found :
  main (serving []) sw1_only config0
  = (Exited "Device not found. Tried: sw1, sw1.example.org" 1,
     ["http://nb/api/dcim/devices/?name=sw1&limit=1000";
      "http://nb/api/dcim/devices/?name=sw1.example.org&limit=1000"])
  ∧ http_get_json (serving [])
      "http://nb/api/dcim/devices/?name=sw1&limit=1000" (Netbox.headers nb0)
    = Raise refused
  ∧ http_get_json (serving [])
      "http://nb/api/dcim/devices/?name=sw1.example.org&limit=1000"
      (Netbox.headers nb0)
    = Raise refused
  ∧ Exited "Device not found. Tried: sw1, sw1.example.org" 1 ≠ Uncaught refused.
Proof. repeat apply conj; [vm_compute; reflexivity | done | done | discriminate]. Qed.

(** The loop over two stretches of interfaces is the loop over the first,
    then over the second. *)
Lemma port_dict_app (w : World) (nb : Netbox.t) (l1 l2 : list json)
    (acc : list (json * gmap string json)) (log : list string) :
  port_dict w nb (l1 ++ l2) acc log
  = (acc1 ← port_dict w nb l1 acc; port_dict w nb l2 acc1) log.
Proof.
  revert acc log. induction l1 as [|x l1 IH]; intros acc log; [done|].
  simpl. unbind.
  destruct (getitem x "name") as [name|]; [|done].
  destruct (Port.load_from_netbox w nb x log) as [[p|] log1]; [|done].
  destruct (dict_setitem acc name (Port.to_dict p)) as [acc1|]; [|done].
  specialize (IH acc1 log1). unbind. by rewrite IH.
Qed.

Lemma filter_interfaces (w : World) (nb : Netbox.t) (device_id : json)
    (log : list string) :
  Netbox.filter w nb Netbox.Interfaces [("device_id", device_id)] 1000 log
  = (r ← http_get_json w (ports_url w nb device_id) (Netbox.headers nb);
     getitem r "results",
     (log ++ [ports_url w nb device_id])%list).
Proof.
  unfold Netbox.filter, Netbox.get. unbind.
  assert (Netbox.base_url nb +:+
          (Netbox.Interfaces +:+ "?" +:+
             String.concat "&"
               ((λ i : string * json, i.1 +:+ "=" +:+ py_str w i.2)
                  <$> Netbox.setitem [("device_id", device_id)] "limit"
                        (JInt 1000)))
          +:+ py_str w (JStr "")
          = ports_url w nb device_id) as ->.
  { unfold ports_url. f_equal. simpl.
    change (String.concat "&" ["device_id" +:+ "=" +:+ py_str w device_id;
                               "limit" +:+ "=" +:+ pretty 1000])
      with (("device_id=" +:+ py_str w device_id) +:+ "&limit=1000").
    change (Netbox.Interfaces +:+ "?" +:+
              ("device_id=" +:+ py_str w device_id) +:+ "&limit=1000")
      with ("/dcim/interfaces/?device_id="
              +:+ (py_str w device_id +:+ "&limit=1000")).
    by rewrite !string_app_assoc. }
  by destruct (http_get_json w (ports_url w nb device_id) (Netbox.headers nb)).
Qed.

Lemma filter_vlans (w : World) (nb : Netbox.t) (log : list string) :
  Netbox.filter w nb Netbox.VLANs [] 1000 log
  = (r ← http_get_json w (vlans_url nb) (Netbox.headers nb);
     getitem r "results",
     (log ++ [vlans_url nb])%list).
Proof.
  unfold Netbox.filter, Netbox.get. unbind.
  change (Netbox.base_url nb +:+
          (Netbox.VLANs +:+ "?" +:+
             String.concat "&"
               ((λ i : string * json, i.1 +:+ "=" +:+ py_str w i.2)
                  <$> Netbox.setitem [] "limit" (JInt 1000)))
          +:+ py_str w (JStr ""))
    with (vlans_url nb).
  by destruct (http_get_json w (vlans_url nb) (Netbox.headers nb)).
Qed.

(** *** Closure of [propagates] under the constructions of the code *)

Lemma propagates_ret (w : World) (nb : Netbox.t) {A : Type} (a : A) :
  propagates w nb (mret a : Py A).
Proof.
  intros log log' r [= <- <-]. exists []. split; [by rewrite app_nil_r|].
  intros i u e Hi. by rewrite lookup_nil in Hi.
Qed.

Lemma propagates_lift (w : World) (nb : Netbox.t) {A : Type} (x : result A) :
  propagates w nb (lift x).
Proof.
  intros log log' r [= <- <-]. exists []. split; [by rewrite app_nil_r|].
  intros i u e Hi. by rewrite lookup_nil in Hi.
Qed.

Lemma propagates_get (w : World) (nb : Netbox.t) (path : string) (arg : json) :
  propagates w nb (Netbox.get w nb path arg).
Proof.
  intros log log' r [= <- <-]. eexists [_]. split; [done|].
  intros i u e Hi Hu. apply list_lookup_singleton_Some in Hi as [-> <-]. done.
Qed.

Lemma propagates_bind (w : World) (nb : Netbox.t) {A B : Type} (c : Py A)
    (k : A → Py B) :
  propagates w nb c → (∀ a, propagates w nb (k a)) → propagates w nb (c ≫= k).
Proof.
  intros Hc Hk log log' r. unfold mbind, Py_bind.
  destruct (c log) as [[a|e0] log1] eqn:Hcl.
  - intros Hka. destruct (Hc _ _ _ Hcl) as (e1 & -> & H1).
    destruct (Hk a _ _ _ Hka) as (e2 & -> & H2).
    exists (e1 ++ e2)%list. split; [by rewrite app_assoc|].
    intros i u e Hi Hu. apply lookup_app_Some in Hi as [Hi|[Hlen Hi]].
    + by destruct (H1 i u e Hi Hu) as [? _].
    + destruct (H2 _ u e Hi Hu) as [-> Hlast]. split; [done|].
      rewrite length_app. lia.
  - intros [= <- <-]. destruct (Hc _ _ _ Hcl) as (e1 & -> & H1).
    exists e1. split; [done|]. intros i u e Hi Hu.
    by destruct (H1 i u e Hi Hu) as [[= ->] ?].
Qed.

(** Builds a proof of [propagates] along the shape of the computation. *)
Ltac propagates :=
  repeat first
    [ apply propagates_ret
    | apply propagates_lift
    | apply propagates_get
    | apply propagates_bind; [|intros ?]
    | match goal with
      | |- propagates _ _ (if ?b then _ else _) => destruct b
      end ].

Lemma propagates_filter (w : World) (nb : Netbox.t) (path : string)
    (args : list (string * json)) (limit : Z) :
  propagates w nb (Netbox.filter w nb path args limit).
Proof. unfold Netbox.filter. propagates. Qed.

Lemma propagates_load_from_netbox (w : World) (nb : Netbox.t) (o : json) :
  propagates w nb (Port.load_from_netbox w nb o).
Proof. unfold Port.load_from_netbox, Port.load_lag. propagates. Qed.

Lemma propagates_port_dict (w : World) (nb : Netbox.t) (data : list json)
    (acc : list (json * gmap string json)) :
  propagates w nb (port_dict w nb data acc).
Proof.
  revert acc. induction data as [|x data IH]; intros acc; simpl;
    [apply propagates_ret|].
  apply propagates_bind; [apply propagates_lift|intros name].
  apply propagates_bind; [apply propagates_load_from_netbox|intros p].
  apply propagates_bind; [apply propagates_lift|intros acc1]. apply IH.
Qed.

Lemma propagates_get_device_info (w : World) (nb : Netbox.t) (device_id : json) :
  propagates w nb (get_device_info w nb device_id).
Proof. unfold get_device_info. propagates. Qed.

Lemma propagates_get_vlans (w : World) (nb : Netbox.t) :
  propagates w nb (get_vlans w nb).
Proof.
  unfold get_vlans.
  apply propagates_bind; [apply propagates_filter|intros ?]. propagates.
Qed.

Lemma propagates_get_ports (w : World) (nb : Netbox.t) (device_id : json) :
  propagates w nb (get_ports w nb device_id).
Proof.
  unfold get_ports.
  apply propagates_bind; [apply propagates_filter|intros ?].
  apply propagates_bind; [apply propagates_lift|intros ?].
  apply propagates_bind; [apply propagates_port_dict|intros ?].
  apply propagates_ret.
Qed.

Lemma propagates_main_sections (w : World) (nb : Netbox.t) (options : Options)
    (device_id : json) (context : gmap string section_value) :
  propagates w nb (main_sections w nb options device_id context).
Proof.
  unfold main_sections, get_users.
  repeat first
    [ apply propagates_get_vlans | apply propagates_get_ports
    | apply propagates_ret | apply propagates_lift
    | apply propagates_bind; [|intros ?]
    | match goal with
      | |- propagates _ _ (if ?b then _ else _) => destruct b
      end ].
Qed.

(** A run, once the configuration is read: the lookup of the device inside
    its [try], then the device and the sections. *)
Lemma main_body_configured (w : World) (options : Options)
    (config : gmap string string) (api_url api_key : string) :
  config !! "api_url" = Some api_url →
  config !! "api_key" = Some api_key →
  let nb := Netbox.init api_url api_key in
  main_body w options config []
  = match given (device options) with
    | Some name =>
        match _get_device_id w nb config name [] with
        | (Ok device_id, log) =>
            (device ← get_device_info w nb device_id;
             main_sections w nb options device_id (device ∪ ∅)) log
        | (Raise e, log) => (Ok (Exited (exn_str w e) 1), log)
        end
    | None => main_sections w nb options JNull ∅ []
    end.
Proof.
  intros Hu Hk nb. subst nb. unfold main_body, config_get. rewrite Hu, Hk.
  unbind. destruct (given (device options)) as [name|]; [|done].
  by destruct (_get_device_id w (Netbox.init api_url api_key) config name [])
    as [[id|e] log].
Qed.

(** C10, as the code has it.  Outside the lookup of the device by name no
    transport error is caught.  A read of [Netbox.get] that raises makes it
    raise; so do the reads of the collections in [get_ports] and
    [get_vlans], the read of the device in [get_device_info], the read of
    the parent in the LAG step of [Port.load_from_netbox], and the loop of
    the port map when the normalisation of a record raises.  In general
    each of [Netbox.get], [Netbox.filter], [Port.load_from_netbox],
    [port_dict], [get_device_info], [get_vlans], [get_ports] and
    [main_sections] lets the errors of the transport through
    ([propagates]): a read that raises is the last read and its exception
    is the result.  For a whole run: after the reads of the device lookup,
    a read that raises is the last read of the run, and the run ends on
    that exception, uncaught.  Inside the lookup the error is caught:
    [__try_get_device] answers [None], and a run whose two lookups fail
    this way prints the device-not-found message and exits with code 1. *)
Theorem transport_errors :
  ∀ (w : World) (nb : Netbox.t),
    (∀ (path : string) (arg : json) (e : exn) (log : list string),
       http_get_json w (Netbox.base_url nb +:+ path +:+ py_str w arg)
         (Netbox.headers nb) = Raise e →
       Netbox.get w nb path arg log
       = (Raise e,
          (log ++ [Netbox.base_url nb +:+ path +:+ py_str w arg])%list))
    ∧ (∀ (device_id : json) (e : exn) (log : list string),
         http_get_json w (ports_url w nb device_id) (Netbox.headers nb)
         = Raise e →
         get_ports w nb device_id log
         = (Raise e, (log ++ [ports_url w nb device_id])%list))
    ∧ (∀ (e : exn) (log : list string),
         http_get_json w (vlans_url nb) (Netbox.headers nb) = Raise e →
         get_vlans w nb log = (Raise e, (log ++ [vlans_url nb])%list))
    ∧ (∀ (device_id : json) (e : exn) (log : list string),
         http_get_json w
           (Netbox.base_url nb +:+ Netbox.Devices +:+ py_str w device_id)
           (Netbox.headers nb) = Raise e →
         get_device_info w nb device_id log
         = (Raise e,
            (log ++ [Netbox.base_url nb +:+ Netbox.Devices
                       +:+ py_str w device_id])%list))
    ∧ (∀ (o d en l name id : json) (n : Z) (e : exn) (log : list string),
         Port.uninteresting o = Ok false →
         Port.description w o = Ok d →
         getitem o "enabled" = Ok en →
         getitem o "lag" = Ok l →
         truthy l = true →
         getitem l "name" = Ok name →
         Port.lag_number w name = Ok n →
         getitem l "id" = Ok id →
         http_get_json w (interface_url w nb id) (Netbox.headers nb) = Raise e →
         Port.load_from_netbox w nb o log
         = (Raise e, (log ++ [interface_url w nb id])%list))
    ∧ (∀ (before after : list json) (x name : json)
         (acc acc1 : list (json * gmap string json))
         (log log1 log2 : list string) (e : exn),
         port_dict w nb before acc log = (Ok acc1, log1) →
         getitem x "name" = Ok name →
         Port.load_from_netbox w nb x log1 = (Raise e, log2) →
         port_dict w nb (before ++ x :: after) acc log = (Raise e, log2))
    ∧ (∀ (path : string) (arg : json), propagates w nb (Netbox.get w nb path arg))
    ∧ (∀ (path : string) (args : list (string * json)) (limit : Z),
         propagates w nb (Netbox.filter w nb path args limit))
    ∧ (∀ o : json, propagates w nb (Port.load_from_netbox w nb o))
    ∧ (∀ (data : list json) (acc : list (json * gmap string json)),
         propagates w nb (port_dict w nb data acc))
    ∧ (∀ device_id : json, propagates w nb (get_device_info w nb device_id))
    ∧ propagates w nb (get_vlans w nb)
    ∧ (∀ device_id : json, propagates w nb (get_ports w nb device_id))
    ∧ (∀ (options : Options) (device_id : json)
         (context : gmap string section_value),
         propagates w nb (main_sections w nb options device_id context))
    ∧ (∀ (options : Options) (config : gmap string string)
         (api_url api_key : string) (out : outcome) (log : list string),
         config !! "api_url" = Some api_url →
         config !! "api_key" = Some api_key →
         main w options config = (out, log) →
         let nb' := Netbox.init api_url api_key in
         ∃ rest : list string,
           log = (lookup_reads w nb' options config ++ rest)%list
           ∧ ∀ (i : nat) (u : string) (e : exn),
               rest !! i = Some u →
               http_get_json w u (Netbox.headers nb') = Raise e →
               out = Uncaught e ∧ S i = List.length rest)
    ∧ (∀ (name : string) (e : exn) (log log' : list string),
         Netbox.filter w nb Netbox.Devices [("name", JStr name)] 1000 log
         = (Raise e, log') →
         __try_get_device w nb name log = (Ok JNull, log'))
    ∧ (∀ (options : Options) (config : gmap string string)
         (api_url api_key name domain : string) (e : exn),
         config !! "api_url" = Some api_url →
         config !! "api_key" = Some api_key →
         config !! "search_domain" = Some domain →
         given (device options) = Some name →
         let nb' := Netbox.init api_url api_key in
         let full := name +:+ "." +:+ domain in
         http_get_json w (device_url nb' name) (Netbox.headers nb') = Raise e →
         http_get_json w (device_url nb' full) (Netbox.headers nb') = Raise e →
         main w options config
         = (Exited ("Device not found. Tried: " +:+ name +:+ ", " +:+ full) 1,
            [device_url nb' name; device_url nb' full])).
Proof.
  intros w nb. repeat apply conj.
  - intros path arg e log H. unfold Netbox.get. by rewrite H.
  - intros device_id e log H. unfold get_ports.
    unfold mbind at 1, Py_bind. by rewrite filter_interfaces, H.
  - intros e log H. unfold get_vlans.
    unfold mbind at 1, Py_bind. by rewrite filter_vlans, H.
  - intros device_id e log H. unfold get_device_info, Netbox.get. unbind.
    by rewrite H.
  - intros o d en l name id n e log Hc Hd He Hl Htl Hn Hnum Hid H.
    rewrite (load_from_netbox_steps w nb o d en l log Hc Hd He Hl), Htl.
    unfold Port.load_lag, Netbox.get. fold (interface_url w nb id). unbind.
    rewrite Hn, Hnum, Hid. unfold interface_url in *. by rewrite H.
  - intros before after x name acc acc1 log log1 log2 e Hbefore Hname Hx.
    rewrite port_dict_app. unfold mbind at 1, Py_bind. rewrite Hbefore.
    simpl. unbind. by rewrite Hname, Hx.
  - apply propagates_get.
  - apply propagates_filter.
  - apply propagates_load_from_netbox.
  - apply propagates_port_dict.
  - apply propagates_get_device_info.
  - apply propagates_get_vlans.
  - apply propagates_get_ports.
  - apply propagates_main_sections.
  - intros options config api_url api_key out log Hu Hk Hmain nb'.
    revert Hmain. unfold main, lookup_reads.
    rewrite (main_body_configured w options config api_url api_key Hu Hk).
    fold nb'. destruct (given (device options)) as [name|].
    + destruct (_get_device_id w nb' config name []) as [[device_id|e0] log0].
      * destruct ((device ← get_device_info w nb' device_id;
                   main_sections w nb' options device_id (device ∪ ∅)) log0)
          as [r log1] eqn:Hrun.
        destruct (propagates_bind w nb' (get_device_info w nb' device_id)
                    (λ device,
                       main_sections w nb' options device_id (device ∪ ∅))
                    (propagates_get_device_info _ _ _)
                    (λ device, propagates_main_sections _ _ _ _ _)
                    _ _ _ Hrun) as (rest & -> & Hrest).
        intros Hmain. exists rest. split; [by destruct r; simplify_eq|].
        intros i u e Hi Hu'. destruct (Hrest i u e Hi Hu') as [-> Hlast].
        by simplify_eq.
      * intros [= <- <-]. exists []. split; [by rewrite app_nil_r|].
        intros i u e Hi. by rewrite lookup_nil in Hi.
    + destruct (main_sections w nb' options JNull ∅ []) as [r log1] eqn:Hrun.
      destruct (propagates_main_sections w nb' options JNull ∅ _ _ _ Hrun)
        as (rest & -> & Hrest).
      intros Hmain. exists rest. split; [by destruct r; simplify_eq|].
      intros i u e Hi Hu'. destruct (Hrest i u e Hi Hu') as [-> Hlast].
      by simplify_eq.
  - intros name e log log' H. unfold __try_get_device. unbind. by rewrite H.
  - intros options config api_url api_key name domain e Hu Hk Hd Hg nb' full
      H1 H2.
    unfold main, main_body, config_get. rewrite Hu, Hk, Hg.
    unfold try_except, mbind, Py_bind, lift, mret, Py_ret.
    fold nb'. rewrite (get_device_id_answers _ _ _ _ domain) by done.
    cbv zeta. fold full. unfold lookup_answer. by rewrite H1, H2.
Qed.

(** With the parent of the LAG member unreachable, the normalisation of the
    member raises the transport's error, and so does the run that exports
    the ports of its device, after the reads of the lookup, of the device
    and of its interfaces. *)
Lemma transport_errors_parent_refused :
  Port.load_from_netbox parent_refused_world nb0 member_port
    ["http://nb/api/dcim/interfaces/?device_id=42&limit=1000"]
  = (Raise refused,
     ["http://nb/api/dcim/interfaces/?device_id=42&limit=1000";
      "http://nb/api/dcim/interfaces/7"])
  ∧ ∃ rest : list string,
      (main parent_refused_world sw1_ports config0).2
      = (lookup_reads parent_refused_world nb0 sw1_ports config0 ++ rest)%list
      ∧ ∀ (i : nat) (u : string) (e : exn),
          rest !! i = Some u →
          http_get_json parent_refused_world u (Netbox.headers nb0) = Raise e →
          (main parent_refused_world sw1_ports config0).1 = Uncaught e
          ∧ S i = List.length rest.
Proof.
  destruct (transport_errors parent_refused_world nb0)
    as (_ & _ & _ & _ & Hload & _ & _ & _ & _ & _ & _ & _ & _ & _ & Hmain & _).
  split.
  - apply (Hload member_port (JStr "server") (JBool true)
             (JObj {[ "id" := JInt 7; "name" := JStr "Port-channel3" ]})
             (JStr "Port-channel3") (JInt 7) 3 refused);
      reflexivity.
  - apply (Hmain sw1_ports config0 "http://nb/api" "secret"); reflexivity.
Defined.

Example parent_refused_run :
  main parent_refused_world sw1_ports config0
  = (Uncaught refused,
     ["http://nb/api/dcim/devices/?name=sw1&limit=1000";
      "http://nb/api/dcim/devices/?name=sw1.example.org&limit=1000";
      "http://nb/api/dcim/devices/42";
      "http://nb/api/dcim/interfaces/?device_id=42&limit=1000";
      "http://nb/api/dcim/interfaces/7"]).
Proof. vm_compute. reflexivity. Qed.

(** * Further properties of the code *)

(** ** The serialised port, continued *)

Lemma put_if_Some (k k' : string) (v x : json) (data : gmap string json) :
  Port.put_if k v data !! k' = Some x →
  (k' = k ∧ x = v ∧ truthy v = true) ∨ data !! k' = Some x.
Proof.
  unfold Port.put_if. destruct (truthy v) eqn:Hv; [|auto].
  destruct (decide (k = k')) as [->|Hne].
  - rewrite lookup_insert_eq. intros [= ->]. auto.
  - rewrite lookup_insert_ne by done. auto.
Qed.

(** X1: the serialised form of any port has exactly one of the keys [clean]
    and [shutdown]; its keys are among the nine field names; and every value
    other than [shutdown] is true in Python's sense, so a field that is
    [None], zero or empty is left out. *)
Theorem to_dict_shape :
  ∀ p : Port.t,
    ((Port.to_dict p !! "clean" = Some (JBool true)
      ∧ Port.to_dict p !! "shutdown" = None)
     ∨ (Port.to_dict p !! "clean" = None
        ∧ Port.to_dict p !! "shutdown" = Some (JBool (Port.shutdown p))))
    ∧ dom (Port.to_dict p) ⊆ port_keys
    ∧ (∀ (k : string) (v : json),
         Port.to_dict p !! k = Some v → k = "shutdown" ∨ truthy v = true).
Proof.
  intros p.
  assert (∀ k v, Port.to_dict p !! k = Some v →
            k ∈ port_keys ∧ (k = "shutdown" ∨ truthy v = true)) as Hkeys.
  { intros k v. unfold Port.to_dict. destruct (Port.clean p).
    - intros [<- <-]%lookup_singleton_Some. split; [|by right].
      unfold port_keys. set_solver.
    - cbv zeta. intros H.
      repeat (apply put_if_Some in H as [(-> & -> & Hv)|H];
              [split; [unfold port_keys; set_solver | by right]|]).
      apply lookup_singleton_Some in H as [<- <-]. split; [|by left].
      unfold port_keys. set_solver. }
  repeat apply conj.
  - destruct (Port.clean p) eqn:Hc.
    + left. rewrite to_dict_clean by done. split; [done|].
      by apply lookup_singleton_ne.
    + right. by destruct (to_dict_shutdown p Hc).
  - intros k [v Hv]%elem_of_dom. by apply (Hkeys k v).
  - intros k v Hv. by apply (Hkeys k v).
Qed.

(** ** The normalised port *)

Lemma set_mode_type (q q' : Port.t) (o : json) :
  Port.set_mode q o = Ok q' →
  (Port.type q' = Port.type q ∨ Port.type q' = JStr "access"
   ∨ Port.type q' = JStr "trunk")
  ∧ (Port.tagged q' = Port.tagged q ∨ Port.tagged q' = JStr "all").
Proof.
  unfold Port.set_mode. unbind. intros H.
  repeat step; simplify_eq; simpl; auto.
Qed.

Lemma set_vlans_tagged_shape (q q' : Port.t) (o : json) :
  Port.set_vlans q o = Ok q' →
  Port.tagged q' = Port.tagged q ∨ ∃ vids, Port.tagged q' = JList vids.
Proof.
  unfold Port.set_vlans. unbind. intros H.
  repeat step; simplify_eq; simpl; eauto.
Qed.

(** The values [type] and [tagged] can have survive the method. *)
Lemma load_mode_and_vlans_shape (q q' : Port.t) (o : json) :
  Port.__load_mode_and_vlans q o = Ok q' →
  (Port.type q = JNull ∨ Port.type q = JStr "access"
   ∨ Port.type q = JStr "trunk") →
  (Port.tagged q = JNull ∨ Port.tagged q = JStr "all"
   ∨ ∃ vids, Port.tagged q = JList vids) →
  (Port.type q' = JNull ∨ Port.type q' = JStr "access"
   ∨ Port.type q' = JStr "trunk")
  ∧ (Port.tagged q' = JNull ∨ Port.tagged q' = JStr "all"
     ∨ ∃ vids, Port.tagged q' = JList vids).
Proof.
  intros H Hty Hta.
  destruct (load_mode_and_vlans_Ok _ _ _ H) as (q1 & H1 & H2).
  destruct (set_mode_type _ _ _ H1) as [Hty1 Hta1].
  destruct (set_vlans_frame _ _ _ H2) as (_ & _ & Hty2 & _).
  destruct (set_vlans_tagged_shape _ _ _ H2) as [Hta2|Hta2].
  - rewrite Hty2, Hta2. split.
    + destruct Hty1 as [->| [->| ->]]; auto.
    + destruct Hta1 as [->| ->]; auto.
  - rewrite Hty2. split; [|auto].
    destruct Hty1 as [->| [->| ->]]; auto.
Qed.

(** X2: every port that normalisation returns has a [type] that is unset,
    "access" or "trunk", and a [tagged] that is unset, "all" or a list; a
    clean port is the freshly constructed one; and on a port that is not
    clean, [lag] is an integer and [lagmode] is "active" when the record
    declares a LAG parent, and both are unset when it does not. *)
Theorem normalised_port_shape :
  ∀ (w : World) (nb : Netbox.t) (o : json) (log log' : list string)
    (p : Port.t),
    Port.load_from_netbox w nb o log = (Ok p, log') →
    (Port.type p = JNull ∨ Port.type p = JStr "access"
     ∨ Port.type p = JStr "trunk")
    ∧ (Port.tagged p = JNull ∨ Port.tagged p = JStr "all"
       ∨ ∃ vids, Port.tagged p = JList vids)
    ∧ (Port.clean p = true → p = Port.init)
    ∧ (Port.clean p = false →
       ∃ l, getitem o "lag" = Ok l
         ∧ if truthy l
           then ∃ n, Port.lag p = JInt n ∧ Port.lagmode p = JStr "active"
           else Port.lag p = JNull ∧ Port.lagmode p = JNull).
Proof.
  intros w nb o log log' p H.
  destruct (load_from_netbox_Ok _ _ _ _ _ _ H)
    as [(_ & -> & _)|(Hc & d & e & l & q1 & q2 & m & _ & _ & Hl & Hq1 & Hq2 & _ & ->)].
  { simpl. repeat apply conj; auto. discriminate. }
  destruct (set_mtu_fields m q2)
    as (_ & Hcl & Hty & _ & Hlag & Hlm & _ & Hta). cbv zeta in *.
  rewrite Hcl, Hty, Hlag, Hlm, Hta.
  pose proof (load_mode_and_vlans_frame _ _ _ Hq2) as (_ & Hc2 & _ & _ & Hlag2 & Hlm2).
  assert ((Port.type q1 = JNull ∨ Port.type q1 = JStr "access"
           ∨ Port.type q1 = JStr "trunk")
          ∧ (Port.tagged q1 = JNull ∨ Port.tagged q1 = JStr "all"
             ∨ ∃ vids, Port.tagged q1 = JList vids)
          ∧ Port.clean q1 = false
          ∧ if truthy l
            then ∃ n, Port.lag q1 = JInt n ∧ Port.lagmode q1 = JStr "active"
            else Port.lag q1 = JNull ∧ Port.lagmode q1 = JNull) as (Hty1 & Hta1 & Hc1 & Hl1).
  { destruct (truthy l).
    - apply load_lag_Ok in Hq1 as (name & n & id & parent & _ & _ & _ & _ & Hq1).
      pose proof (load_mode_and_vlans_frame _ _ _ Hq1) as (_ & -> & _ & _ & -> & ->).
      destruct (load_mode_and_vlans_shape _ _ _ Hq1) as [? ?]; simpl; eauto 6.
    - injection Hq1 as <- _. simpl. auto 6. }
  destruct (load_mode_and_vlans_shape _ _ _ Hq2 Hty1 Hta1) as [Hty2 Hta2].
  repeat apply conj; try done.
  - congruence.
  - intros _. exists l. split; [done|]. by rewrite Hlag2, Hlm2.
Qed.

Lemma normalised_port_shape_member :
  (Port.type member_port_normalised = JNull
   ∨ Port.type member_port_normalised = JStr "access"
   ∨ Port.type member_port_normalised = JStr "trunk")
  ∧ (Port.tagged member_port_normalised = JNull
     ∨ Port.tagged member_port_normalised = JStr "all"
     ∨ ∃ vids, Port.tagged member_port_normalised = JList vids)
  ∧ (Port.clean member_port_normalised = true →
     member_port_normalised = Port.init)
  ∧ (Port.clean member_port_normalised = false →
     ∃ l, getitem member_port "lag" = Ok l
       ∧ if truthy l
         then ∃ n, Port.lag member_port_normalised = JInt n
                ∧ Port.lagmode member_port_normalised = JStr "active"
         else Port.lag member_port_normalised = JNull
              ∧ Port.lagmode member_port_normalised = JNull).
Proof.
  apply (normalised_port_shape lag_world nb0 member_port []
           ["http://nb/api/dcim/interfaces/7"] member_port_normalised).
  vm_compute. reflexivity.
Defined.

(** ** Reads issued by the port normaliser *)

Lemma load_lag_reads (w : World) (nb : Netbox.t) (q : Port.t) (l : json)
    (log log' : list string) (r : result Port.t) :
  Port.load_lag w nb q l log = (r, log') →
  log' = log
  ∨ ∃ id, getitem l "id" = Ok id ∧ log' = (log ++ [interface_url w nb id])%list.
Proof.
  unfold Port.load_lag, Netbox.get, interface_url. unbind. intros H.
  repeat step; simplify_eq; eauto.
Qed.

(** The reads one normalisation adds to the log. *)
Lemma load_from_netbox_adds :
  ∀ (w : World) (nb : Netbox.t) (o : json) (log log' : list string)
    (r : result Port.t),
    Port.load_from_netbox w nb o log = (r, log') →
    (declares_lag o = false → log' = log)
    ∧ (log' = log
       ∨ ∃ l id, getitem o "lag" = Ok l ∧ truthy l = true
           ∧ getitem l "id" = Ok id
           ∧ log' = (log ++ [interface_url w nb id])%list).
Proof.
  intros w nb o log log' r. unfold Port.load_from_netbox, declares_lag.
  unfold mbind at 1 2 3 4, Py_bind, lift, mret, Py_ret.
  destruct (Port.uninteresting o) as [[]|];
    [intros [= _ <-]; by auto| |intros [= _ <-]; by auto].
  destruct (Port.description w o); [|intros [= _ <-]; by auto].
  destruct (getitem o "enabled"); [|intros [= _ <-]; by auto].
  destruct (getitem o "lag") as [l|]; [|intros [= _ <-]; by auto].
  destruct (truthy l) eqn:Htl.
  - cbv beta iota. unfold mbind, Py_bind.
    match goal with
    | |- context [Port.load_lag w nb ?q l log] =>
        destruct (Port.load_lag w nb q l log) as [r1 log1] eqn:Hlag
    end.
    apply load_lag_reads in Hlag.
    unbind. intros H.
    assert (log' = log1) as -> by (repeat step; by simplify_eq).
    split; [done|]. destruct Hlag as [->|(id & Hid & ->)]; eauto 8.
  - cbv beta iota. unbind. intros H.
    assert (log' = log) as -> by (repeat step; by simplify_eq).
    auto.
Qed.

(** X3: whether it returns a port or raises, normalising one record issues
    no read at all when the record declares no LAG parent, and otherwise at
    most one, the read of the parent interface by its id. *)
Theorem load_from_netbox_reads :
  ∀ (w : World) (nb : Netbox.t) (o : json) (log log' : list string)
    (r : result Port.t),
    Port.load_from_netbox w nb o log = (r, log') →
    (declares_lag o = false → log' = log)
    ∧ (log' = log
       ∨ ∃ l id, getitem o "lag" = Ok l ∧ truthy l = true
           ∧ getitem l "id" = Ok id
           ∧ log' = (log ++ [interface_url w nb id])%list).
Proof. exact load_from_netbox_adds. Qed.

Lemma load_from_netbox_reads_member :
  (declares_lag member_port = false → ["http://nb/api/dcim/interfaces/7"] = [])
  ∧ (["http://nb/api/dcim/interfaces/7"] = []
     ∨ ∃ l id, getitem member_port "lag" = Ok l ∧ truthy l = true
         ∧ getitem l "id" = Ok id
         ∧ ["http://nb/api/dcim/interfaces/7"]
           = ([] ++ [interface_url lag_world nb0 id])%list).
Proof.
  apply (load_from_netbox_reads lag_world nb0 member_port []
           ["http://nb/api/dcim/interfaces/7"] (Ok member_port_normalised)).
  vm_compute. reflexivity.
Defined.

(** ** The port map *)

(** X4: the port map is all or nothing: when the interfaces before [x] are
    normalised and [x] itself raises, in its name, its normalisation or the
    insertion under its name, the loop raises the same exception, whatever
    follows [x]; no interface after [x] is read. *)
Theorem port_dict_aborts :
  ∀ (w : World) (nb : Netbox.t) (before after : list json) (x : json)
    (acc acc1 : list (json * gmap string json)) (log log1 log2 : list string)
    (e : exn),
    port_dict w nb before acc log = (Ok acc1, log1) →
    (name ← lift (getitem x "name");
     port ← Port.load_from_netbox w nb x;
     lift (dict_setitem acc1 name (Port.to_dict port))) log1
    = (Raise e, log2) →
    port_dict w nb (before ++ x :: after) acc log = (Raise e, log2).
Proof.
  intros w nb before after x acc acc1 log log1 log2 e Hbefore Hx.
  rewrite port_dict_app. unfold mbind at 1, Py_bind. rewrite Hbefore.
  simpl. revert Hx. unbind.
  destruct (getitem x "name") as [name|]; [|done].
  destruct (Port.load_from_netbox w nb x log1) as [[p|] log1']; [|done].
  by destruct (dict_setitem acc1 name (Port.to_dict p)); [discriminate|].
Qed.

Lemma port_dict_aborts_bare_lag :
  port_dict (serving []) nb0 ([idle_port] ++ bare_lag :: [eth1]) [] []
  = (Raise (unknown_endpoint JNull), []).
Proof.
  apply (port_dict_aborts (serving []) nb0 [idle_port] [eth1] bare_lag []
           [(JStr "Eth7", {[ "clean" := JBool true ]})] [] [] []).
  - reflexivity.
  - reflexivity.
Defined.

(** The loop of the port map issues at most one read for each interface
    that declares a LAG parent, and none for the others, whether it ends
    with the map or with an exception. *)
Lemma port_dict_reads :
  ∀ (w : World) (nb : Netbox.t) (data : list json)
    (acc : list (json * gmap string json)) (log log' : list string)
    (r : result (list (json * gmap string json))),
    port_dict w nb data acc log = (r, log') →
    ∃ extra : list string,
      log' = (log ++ extra)%list
      ∧ (List.length extra ≤ List.length (List.filter declares_lag data))%nat.
Proof.
  intros w nb data. induction data as [|x data IH]; intros acc log log' r.
  { intros [= _ <-]. exists []. by rewrite app_nil_r. }
  assert (List.length (List.filter declares_lag (x :: data))
          = (List.length (List.filter declares_lag [x])
             + List.length (List.filter declares_lag data))%nat) as ->.
  { simpl. destruct (declares_lag x); simpl; lia. }
  cbn [port_dict]. unfold mbind at 1 2 3, Py_bind, lift.
  destruct (getitem x "name") as [name|].
  2:{ intros [= _ <-]. exists []. rewrite app_nil_r. split; [done|simpl; lia]. }
  destruct (Port.load_from_netbox w nb x log) as [r1 log1] eqn:Hload.
  apply load_from_netbox_adds in Hload as [Hnone Hone].
  assert (∃ e1, log1 = (log ++ e1)%list
                ∧ (List.length e1 ≤ List.length (List.filter declares_lag [x]))%nat)
    as (e1 & -> & He1).
  { simpl. destruct (declares_lag x).
    - destruct Hone as [->|(? & ? & _ & _ & _ & ->)].
      + exists []. rewrite app_nil_r. split; [done|simpl; lia].
      + eexists. split; [done|simpl; lia].
    - exists []. rewrite app_nil_r, Hnone by done. split; [done|simpl; lia]. }
  destruct r1 as [p|].
  2:{ intros [= _ <-]. exists e1. split; [done|lia]. }
  destruct (dict_setitem acc name (Port.to_dict p)) as [acc1|].
  2:{ intros [= _ <-]. exists e1. split; [done|lia]. }
  intros H. apply IH in H as (e2 & -> & He2).
  exists (e1 ++ e2)%list. rewrite app_assoc, length_app. split; [done|lia].
Qed.

(** The read one normalisation adds to the log, if any, is the read of the
    parent its record names. *)
Lemma load_from_netbox_parent (w : World) (nb : Netbox.t) (o : json)
    (log log' : list string) (r : result Port.t) :
  Port.load_from_netbox w nb o log = (r, log') →
  log' = log ∨ ∃ u, parent_url w nb o = Some u ∧ log' = (log ++ [u])%list.
Proof.
  intros H. apply load_from_netbox_adds in H as [_ [->|H]]; [by left|right].
  destruct H as (l & id & Hl & Htl & Hid & ->).
  exists (interface_url w nb id). split; [|done].
  unfold parent_url. by rewrite Hl, Htl, Hid.
Qed.

(** The reads of the loop of the port map are reads of parents the records
    name, at most one for each record, in the order of the records. *)
Lemma port_dict_parents :
  ∀ (w : World) (nb : Netbox.t) (data : list json)
    (acc : list (json * gmap string json)) (log log' : list string)
    (r : result (list (json * gmap string json))),
    port_dict w nb data acc log = (r, log') →
    ∃ parents : list string,
      parents `sublist_of` omap (parent_url w nb) data
      ∧ log' = (log ++ parents)%list.
Proof.
  intros w nb data. induction data as [|x data IH]; intros acc log log' r.
  { intros [= _ <-]. exists []. by rewrite app_nil_r. }
  assert (∀ ps, ps `sublist_of` omap (parent_url w nb) data →
                ps `sublist_of` omap (parent_url w nb) (x :: data)) as Hskip.
  { intros ps Hps. simpl. destruct (parent_url w nb x); [|done].
    by apply sublist_cons. }
  assert (∀ u ps, parent_url w nb x = Some u →
                  ps `sublist_of` omap (parent_url w nb) data →
                  (u :: ps) `sublist_of` omap (parent_url w nb) (x :: data))
    as Htake.
  { intros u ps Hu Hps. simpl. rewrite Hu. by apply sublist_skip. }
  cbn [port_dict]. unfold mbind at 1 2 3, Py_bind, lift.
  destruct (getitem x "name") as [name|].
  2:{ intros [= _ <-]. exists []. rewrite app_nil_r.
      split; [apply sublist_nil_l|done]. }
  destruct (Port.load_from_netbox w nb x log) as [r1 log1] eqn:Hload.
  apply load_from_netbox_parent in Hload.
  assert (∀ r2 : result (list (json * gmap string json)),
            (r2, log1) = (r, log') →
            ∃ parents, parents `sublist_of` omap (parent_url w nb) (x :: data)
                       ∧ log' = (log ++ parents)%list) as Hstop.
  { intros r2 [= _ <-]. destruct Hload as [->|(u & Hu & ->)].
    - exists []. rewrite app_nil_r. split; [apply sublist_nil_l|done].
    - exists [u]. split; [|done]. apply Htake; [done|apply sublist_nil_l]. }
  destruct r1 as [p|]; [|apply Hstop].
  destruct (dict_setitem acc name (Port.to_dict p)) as [acc1|]; [|apply Hstop].
  intros H. apply IH in H as (ps & Hps & ->).
  destruct Hload as [->|(u & Hu & ->)].
  - exists ps. split; [by apply Hskip|done].
  - exists (u :: ps). split; [by apply Htake|]. by rewrite <- app_assoc.
Qed.

Lemma parents_declare_lag (w : World) (nb : Netbox.t) (data : list json) :
  (List.length (omap (parent_url w nb) data)
   ≤ List.length (List.filter declares_lag data))%nat.
Proof.
  induction data as [|x data IH]; [done|]. simpl.
  change (list_omap json string (parent_url w nb) data)
    with (omap (parent_url w nb) data).
  assert (parent_url w nb x = None ∨ declares_lag x = true) as [-> | ->].
  { unfold parent_url, declares_lag.
    destruct (getitem x "lag") as [l|]; [|by left].
    destruct (truthy l); [by right|by left]. }
  - destruct (declares_lag x); simpl; lia.
  - destruct (parent_url w nb x); simpl; lia.
Qed.

(** The export of the ports reads the collection, then runs the loop on
    what it got. *)
Lemma get_ports_served (w : World) (nb : Netbox.t) (device_id : json)
    (log : list string) :
  get_ports w nb device_id log
  = match interfaces_answer w nb device_id with
    | Ok items =>
        (ports ← port_dict w nb items [];
         mret ({[ "ports" := Mapping ports ]} : gmap string section_value))
          (log ++ [ports_url w nb device_id])%list
    | Raise e => (Raise e, (log ++ [ports_url w nb device_id])%list)
    end.
Proof.
  unfold get_ports, interfaces_answer.
  unfold mbind at 1, Py_bind. rewrite filter_interfaces.
  unfold mbind, Py_bind, result_bind, lift.
  destruct (http_get_json w (ports_url w nb device_id) (Netbox.headers nb));
    [|done].
  destruct (getitem _ "results") as [results|]; [|done].
  by destruct (iter results).
Qed.

(** X5: the export of a device's ports first reads the collection of its
    interfaces, at [.../dcim/interfaces/?device_id=<id>&limit=1000] with the
    identifier written by [str], and after it only parent interfaces that
    the records of the answer name: at most one read for each record that
    declares a LAG parent, at [.../dcim/interfaces/<id of the parent>], in
    the order of the records; so no more reads than records that declare a
    LAG parent, and none at all when the first read, its envelope or the
    iteration over its results fails, in which case the export raises that
    exception.  This holds whether the export ends with the map or with an
    exception. *)
Theorem get_ports_reads :
  ∀ (w : World) (nb : Netbox.t) (device_id : json) (log log' : list string)
    (r : result (gmap string section_value)),
    get_ports w nb device_id log = (r, log') →
    ∃ parents : list string,
      log' = (log ++ ports_url w nb device_id :: parents)%list
      ∧ parents `sublist_of`
          omap (parent_url w nb) (served_interfaces w nb device_id)
      ∧ (List.length parents
         ≤ List.length
             (List.filter declares_lag (served_interfaces w nb device_id)))%nat
      ∧ (∀ e : exn,
           interfaces_answer w nb device_id = Raise e →
           parents = [] ∧ r = Raise e).
Proof.
  intros w nb device_id log log' r Hrun.
  assert (∃ parents : list string,
            log' = (log ++ ports_url w nb device_id :: parents)%list
            ∧ parents `sublist_of`
                omap (parent_url w nb) (served_interfaces w nb device_id)
            ∧ (∀ e : exn,
                 interfaces_answer w nb device_id = Raise e →
                 parents = [] ∧ r = Raise e)) as (parents & Hlog & Hsub & Hfail).
  { rewrite get_ports_served in Hrun. unfold served_interfaces.
    destruct (interfaces_answer w nb device_id) as [items|e0].
    2:{ injection Hrun as <- <-. exists []. split; [done|].
        split; [apply sublist_nil_l|]. by intros e [= ->]. }
    revert Hrun. unfold mbind, Py_bind, mret, Py_ret.
    destruct (port_dict w nb items [] (log ++ [ports_url w nb device_id])%list)
      as [r1 log1] eqn:Hpd.
    apply port_dict_parents in Hpd as (parents & Hsub & ->).
    intros H.
    assert (log' = ((log ++ [ports_url w nb device_id]) ++ parents)%list)
      as -> by (by destruct r1; simplify_eq).
    exists parents. rewrite <- app_assoc. split; [done|]. split; [done|].
    intros e; discriminate. }
  exists parents. split; [done|]. split; [done|]. split; [|done].
  etrans; [by apply sublist_length|]. apply parents_declare_lag.
Qed.

Lemma get_ports_reads_sw1 :
  ∃ parents : list string,
    ["http://nb/api/dcim/interfaces/?device_id=42&limit=1000";
     "http://nb/api/dcim/interfaces/7"]
    = ([] ++ ports_url ports_world nb0 (JInt 42) :: parents)%list
    ∧ parents `sublist_of`
        omap (parent_url ports_world nb0)
          (served_interfaces ports_world nb0 (JInt 42))
    ∧ (List.length parents
       ≤ List.length
           (List.filter declares_lag
              (served_interfaces ports_world nb0 (JInt 42))))%nat
    ∧ (∀ e : exn,
         interfaces_answer ports_world nb0 (JInt 42) = Raise e →
         parents = [] ∧ ports_of_sw1 = Raise e).
Proof.
  apply (get_ports_reads ports_world nb0 (JInt 42) []
           ["http://nb/api/dcim/interfaces/?device_id=42&limit=1000";
            "http://nb/api/dcim/interfaces/7"]
           ports_of_sw1).
  vm_compute. reflexivity.
Defined.

(** When the collection of the interfaces is not served, the export makes
    that one read and no other. *)
Example get_ports_unreachable :
  get_ports (serving []) nb0 (JInt 42) []
  = (Raise refused, ["http://nb/api/dcim/interfaces/?device_id=42&limit=1000"])
  ∧ served_interfaces (serving []) nb0 (JInt 42) = [].
Proof. split; vm_compute; reflexivity. Qed.

(** ** Where the reads go *)

Lemma reads_under_ret (base : string) {A : Type} (a : A) :
  reads_under base (mret a : Py A).
Proof. exists (Ok a), []. split; [|done]. intros log. by rewrite app_nil_r. Qed.

Lemma reads_under_lift (base : string) {A : Type} (r : result A) :
  reads_under base (lift r).
Proof. exists r, []. split; [|done]. intros log. unfold lift. by rewrite app_nil_r. Qed.

Lemma reads_under_bind (base : string) {A B : Type} (c : Py A) (k : A → Py B) :
  reads_under base c → (∀ a, reads_under base (k a)) →
  reads_under base (c ≫= k).
Proof.
  intros (r & e1 & Hc & He1) Hk. destruct r as [a|e].
  - destruct (Hk a) as (r2 & e2 & Hka & He2).
    exists r2, (e1 ++ e2)%list. split; [|by apply Forall_app].
    intros log. unfold mbind, Py_bind. by rewrite Hc, Hka, app_assoc.
  - exists (Raise e), e1. split; [|done].
    intros log. unfold mbind, Py_bind. by rewrite Hc.
Qed.

Lemma reads_under_try (base : string) {A : Type} (c : Py A) (h : exn → Py A) :
  reads_under base c → (∀ e, reads_under base (h e)) →
  reads_under base (try_except c h).
Proof.
  intros (r & e1 & Hc & He1) Hh. destruct r as [a|e].
  - exists (Ok a), e1. split; [|done].
    intros log. unfold try_except. by rewrite Hc.
  - destruct (Hh e) as (r2 & e2 & Hhe & He2).
    exists r2, (e1 ++ e2)%list. split; [|by apply Forall_app].
    intros log. unfold try_except. by rewrite Hc, Hhe, app_assoc.
Qed.

Lemma reads_under_get (w : World) (nb : Netbox.t) (path : string) (arg : json) :
  reads_under (Netbox.base_url nb) (Netbox.get w nb path arg).
Proof.
  eexists _, [_]. split; [intros log; reflexivity|].
  apply Forall_singleton. eauto.
Qed.

Lemma reads_under_bind_Ok (base : string) {A B : Type} (a : A) (k : A → Py B) :
  reads_under base (k a) → reads_under base (lift (Ok a) ≫= k).
Proof.
  intros (r & e & H & He). exists r, e. split; [|done].
  intros log. unfold mbind, Py_bind, lift. apply H.
Qed.

(** Builds a proof of [reads_under] along the shape of the computation. *)
Ltac reads_under :=
  repeat first
    [ apply reads_under_ret
    | apply reads_under_lift
    | apply reads_under_get
    | apply reads_under_bind; [|intros ?]
    | apply reads_under_try; [|intros ?]
    | match goal with
      | |- reads_under _ (if ?b then _ else _) => destruct b
      | |- reads_under _ (match ?x with Some _ => _ | None => _ end) =>
          destruct x
      | |- reads_under _ (match ?x with inl _ => _ | inr _ => _ end) =>
          destruct x
      end ].

Lemma reads_under_filter (w : World) (nb : Netbox.t) (path : string)
    (args : list (string * json)) (limit : Z) :
  reads_under (Netbox.base_url nb) (Netbox.filter w nb path args limit).
Proof. unfold Netbox.filter. reads_under. Qed.

Lemma reads_under_load_from_netbox (w : World) (nb : Netbox.t) (o : json) :
  reads_under (Netbox.base_url nb) (Port.load_from_netbox w nb o).
Proof. unfold Port.load_from_netbox, Port.load_lag. reads_under. Qed.

Lemma reads_under_try_names (w : World) (nb : Netbox.t) (names : list string) :
  reads_under (Netbox.base_url nb) (try_names w nb names).
Proof.
  induction names as [|name names IH]; simpl; [apply reads_under_ret|].
  unfold __try_get_device.
  apply reads_under_bind; [|intros r; destruct (truthy r); [apply reads_under_ret|done]].
  apply reads_under_try; [|intros ?; apply reads_under_ret].
  apply reads_under_bind; [apply reads_under_filter|intros ?]. reads_under.
Qed.

Lemma reads_under_port_dict (w : World) (nb : Netbox.t) (data : list json)
    (acc : list (json * gmap string json)) :
  reads_under (Netbox.base_url nb) (port_dict w nb data acc).
Proof.
  revert acc. induction data as [|x data IH]; intros acc; simpl;
    [apply reads_under_ret|].
  apply reads_under_bind; [apply reads_under_lift|intros name].
  apply reads_under_bind; [apply reads_under_load_from_netbox|intros p].
  apply reads_under_bind; [apply reads_under_lift|intros acc1]. apply IH.
Qed.

Lemma reads_under_main_body (w : World) (options : Options)
    (config : gmap string string) (api_url : string) :
  config !! "api_url" = Some api_url →
  reads_under api_url (main_body w options config).
Proof.
  intros Hu. unfold main_body.
  assert (config_get config "api_url" = Ok api_url) as ->
    by (unfold config_get; by rewrite Hu).
  apply reads_under_bind_Ok.
  apply reads_under_bind; [apply reads_under_lift|intros api_key].
  set (nb := Netbox.init api_url api_key).
  change api_url with (Netbox.base_url nb).
  assert (∀ id ctx, reads_under (Netbox.base_url nb)
                      (main_sections w nb options id ctx)) as Hsec.
  { intros id ctx. unfold main_sections, get_vlans, get_ports, get_users.
    repeat first
      [ apply reads_under_filter | apply reads_under_port_dict
      | apply reads_under_ret | apply reads_under_lift
      | apply reads_under_bind; [|intros ?]
      | match goal with
        | |- reads_under _ (if ?b then _ else _) => destruct b
        end ]. }
  destruct (given (device options)) as [name|]; [|apply Hsec].
  apply reads_under_bind.
  - apply reads_under_try; [|intros ?; apply reads_under_ret].
    apply reads_under_bind; [|intros ?; apply reads_under_ret].
    unfold _get_device_id.
    apply reads_under_bind; [apply reads_under_lift|intros domain].
    apply reads_under_bind; [apply reads_under_try_names|intros [id|]];
      [apply reads_under_ret|apply reads_under_lift].
  - intros [id|text]; [|apply reads_under_ret].
    unfold get_device_info.
    apply reads_under_bind; [|intros ?; apply Hsec].
    reads_under.
Qed.

(** X6: every read of a run goes to a URL that starts with the [api_url] of
    the configuration file. *)
Theorem main_reads_under_api_url :
  ∀ (w : World) (options : Options) (config : gmap string string)
    (api_url : string),
    config !! "api_url" = Some api_url →
    Forall (λ u, ∃ rest, u = api_url +:+ rest) (main w options config).2.
Proof.
  intros w options config api_url Hu.
  destruct (reads_under_main_body w options config api_url Hu)
    as (r & extra & H & Hextra).
  unfold main. rewrite (H []). by destruct r.
Qed.

Lemma main_reads_under_api_url_sw1 :
  Forall (λ u, ∃ rest, u = "http://nb/api" +:+ rest)
    (main full_world everything_but_users config0).2.
Proof.
  apply (main_reads_under_api_url full_world everything_but_users config0
           "http://nb/api").
  reflexivity.
Defined.

(** ** The whole run *)

Example sw1_run :
  main full_world everything_but_users config0 = (Printed sw1_document, sw1_reads).
Proof. vm_compute. reflexivity. Qed.

(** Splits on the next computation whose result and log are taken apart. *)
Ltac step_pair :=
  match goal with
  | H : context [let (_, _) := ?c in _] |- _ =>
      destruct c as [[?|?] ?] eqn:?; try discriminate H
  end.

Lemma get_vlans_Ok (w : World) (nb : Netbox.t) (log log' : list string)
    (v : gmap string section_value) :
  get_vlans w nb log = (Ok v, log') → dom v = {[ "vlans" ]}.
Proof.
  unfold get_vlans. unbind. intros H. repeat (step_pair || step). simplify_eq.
  apply dom_singleton_L.
Qed.

Lemma get_ports_Ok (w : World) (nb : Netbox.t) (device_id : json)
    (log log' : list string) (p : gmap string section_value) :
  get_ports w nb device_id log = (Ok p, log') → dom p = {[ "ports" ]}.
Proof.
  unfold get_ports. unbind. intros H. repeat (step_pair || step). simplify_eq.
  apply dom_singleton_L.
Qed.

Lemma get_device_info_Ok (w : World) (nb : Netbox.t) (device_id : json)
    (log log' : list string) (d : gmap string section_value) :
  get_device_info w nb device_id log = (Ok d, log') → dom d = {[ "hostname" ]}.
Proof.
  unfold get_device_info. unbind. intros H. repeat (step_pair || step). simplify_eq.
  apply dom_singleton_L.
Qed.

Lemma main_sections_Ok (w : World) (nb : Netbox.t) (options : Options)
    (device_id : json) (context : gmap string section_value)
    (log log' : list string) (out : outcome) :
  main_sections w nb options device_id context log = (Ok out, log') →
  users options = false
  ∧ ∃ context', out = Printed context'
      ∧ dom context'
        = (if ports options then {[ "ports" ]} else ∅)
          ∪ ((if vlans options then {[ "vlans" ]} else ∅) ∪ dom context).
Proof.
  unfold main_sections, get_users. unfold mbind at 1, Py_bind.
  destruct (vlans options).
  - unfold mbind at 1, Py_bind.
    destruct (get_vlans w nb log) as [[v|] log1] eqn:Hv; [|done].
    apply get_vlans_Ok in Hv. unfold mret at 1, Py_ret.
    unfold mbind at 1, Py_bind. destruct (ports options).
    + unfold mbind at 1, Py_bind.
      destruct (get_ports w nb device_id log1) as [[p|] log2] eqn:Hp; [|done].
      apply get_ports_Ok in Hp. unbind. destruct (users options); [done|].
      intros [= <-]. split; [done|]. eexists. split; [done|].
      by rewrite !dom_union_L, Hv, Hp.
    + unbind. destruct (users options); [done|].
      intros [= <-]. split; [done|]. eexists. split; [done|].
      by rewrite !dom_union_L, Hv, !(left_id_L ∅ (∪)).
  - unfold mret at 1, Py_ret.
    unfold mbind at 1, Py_bind. destruct (ports options).
    + unfold mbind at 1, Py_bind.
      destruct (get_ports w nb device_id log) as [[p|] log2] eqn:Hp; [|done].
      apply get_ports_Ok in Hp. unbind. destruct (users options); [done|].
      intros [= <-]. split; [done|]. eexists. split; [done|].
      by rewrite !dom_union_L, Hp, !(left_id_L ∅ (∪)).
    + unbind. destruct (users options); [done|].
      intros [= <-]. split; [done|]. eexists. split; [done|].
      by rewrite !(left_id_L ∅ (∪)).
Qed.

(** X7: a run that prints a document was started without [--users], and
    the document has exactly the sections that were asked for: [hostname]
    when a device was named, [vlans] with [--vlans], [ports] with [--ports];
    a section that was not asked for is an absent key. *)
Theorem main_prints_requested_sections :
  ∀ (w : World) (options : Options) (config : gmap string string)
    (context : gmap string section_value) (log : list string),
    main w options config = (Printed context, log) →
    users options = false
    ∧ dom context
      = (if ports options then {[ "ports" ]} else ∅)
        ∪ ((if vlans options then {[ "vlans" ]} else ∅)
           ∪ match given (device options) with
             | Some _ => {[ "hostname" ]}
             | None => ∅
             end).
Proof.
  intros w options config context log. unfold main.
  destruct (main_body w options config []) as [[out|] log1] eqn:Hbody; [|done].
  intros [= -> ->]. revert Hbody. unfold main_body.
  unfold mbind at 1, Py_bind, lift.
  destruct (config_get config "api_url") as [api_url|]; [|done].
  unfold mbind at 1, Py_bind.
  destruct (config_get config "api_key") as [api_key|]; [|done].
  destruct (given (device options)) as [name|].
  - unfold mbind at 1, Py_bind, try_except.
    unfold mbind at 1, Py_bind.
    destruct (_get_device_id w _ config name []) as [[id|] log0]; [|done].
    unfold mret at 1, Py_ret. unfold mbind at 1, Py_bind.
    destruct (get_device_info w _ id log0) as [[d|] log2] eqn:Hd; [|done].
    apply get_device_info_Ok in Hd.
    intros H. apply main_sections_Ok in H as (Hu & ctx' & [= <-] & Hdom).
    split; [done|]. by rewrite Hdom, dom_union_L, Hd, dom_empty_L, (right_id_L ∅ (∪)).
  - intros H. apply main_sections_Ok in H as (Hu & ctx' & [= <-] & Hdom).
    split; [done|]. by rewrite Hdom.
Qed.

Lemma main_prints_requested_sections_sw1 :
  users everything_but_users = false
  ∧ dom sw1_document
    = (if ports everything_but_users then {[ "ports" ]} else ∅)
      ∪ ((if vlans everything_but_users then {[ "vlans" ]} else ∅)
         ∪ match given (device everything_but_users) with
           | Some _ => {[ "hostname" ]}
           | None => ∅
           end).
Proof.
  apply (main_prints_requested_sections full_world everything_but_users config0
           sw1_document sw1_reads).
  vm_compute. reflexivity.
Defined.



(** X9: with [--ports] and no device (and no [--vlans]), the run does not
    stop: its first read asks for the interfaces of the device whose id is
    written [None], at [.../dcim/interfaces/?device_id=None&limit=1000]. *)
Theorem main_ports_without_device :
  ∀ (w : World) (options : Options) (config : gmap string string)
    (api_url api_key : string),
    config !! "api_url" = Some api_url →
    config !! "api_key" = Some api_key →
    given (device options) = None →
    vlans options = false →
    ports options = true →
    ∃ (out : outcome) (extra : list string),
      main w options config
      = (out,
         (api_url +:+ "/dcim/interfaces/?device_id=None&limit=1000") :: extra).
Proof.
  intros w options config api_url api_key Hu Hk Hg Hv Hp.
  unfold main, main_body, config_get. rewrite Hu, Hk, Hg.
  unfold main_sections, get_users. rewrite Hv, Hp. unbind.
  set (nb := Netbox.init api_url api_key).
  destruct (get_ports w nb JNull []) as [r log1] eqn:Hports.
  assert (∃ extra, log1 = ports_url w nb JNull :: extra) as (extra & ->).
  { revert Hports. unfold get_ports. unfold mbind at 1, Py_bind.
    rewrite filter_interfaces.
    destruct (_ ← http_get_json w (ports_url w nb JNull) (Netbox.headers nb); _)
      as [results|]; [|intros [= _ <-]; by exists []].
    unfold mbind at 1, Py_bind, lift.
    destruct (iter results) as [items|]; [|intros [= _ <-]; by exists []].
    unfold mbind, Py_bind, mret, Py_ret.
    destruct (port_dict w nb items [] ([] ++ [ports_url w nb JNull])%list)
      as [r1 log2] eqn:Hpd.
    apply port_dict_reads in Hpd as (extra & -> & _).
    intros H. exists extra. destruct r1; by simplify_eq. }
  change (ports_url w nb JNull)
    with (api_url +:+ "/dcim/interfaces/?device_id=None&limit=1000").
  destruct r as [p|e]; [|eexists _, _; reflexivity].
  destruct (users options); eexists _, _; reflexivity.
Qed.

Lemma main_ports_without_device_unreachable :
  ∃ (out : outcome) (extra : list string),
    main (serving []) ports_only config0
    = (out,
       ("http://nb/api" +:+ "/dcim/interfaces/?device_id=None&limit=1000")
         :: extra).
Proof.
  apply (main_ports_without_device (serving []) ports_only config0
           "http://nb/api" "secret"); reflexivity.
Defined.

(** ** Dictionaries keyed by JSON scalars *)

Lemma key_eq_sym (a b : json) : key_eq a b = key_eq b a.
Proof.
  destruct a, b; simpl; try done.
  - by destruct b, b0.
  - apply Z.eqb_sym.
  - apply String.eqb_sym.
Qed.

Lemma key_eq_true_l (a b c : json) :
  key_eq a b = true → key_eq a c = key_eq b c.
Proof.
  destruct a as [|x|x|x| |], b as [|y|y|y| |]; simpl; try done.
  - intros ->%Bool.eqb_prop. done.
  - intros <-%Z.eqb_eq. destruct c as [|z|z|z| |]; simpl; try done.
    + by destruct x, z.
  - intros <-%Z.eqb_eq. destruct c as [|z|z|z| |]; simpl; try done.
    + by destruct y, z.
  - intros ->%Z.eqb_eq. done.
  - intros ->%String.eqb_eq. done.
Qed.

(** Reading back after [d[k] = v]: [v] under every key equal to [k], and
    what was there under the others. *)
Lemma dict_get_put {V : Type} (d : list (json * V)) (k q : json) (v : V) :
  dict_get (dict_put d k v) q = if key_eq k q then Some v else dict_get d q.
Proof.
  induction d as [|[k' v'] d IH]; simpl; [done|].
  destruct (key_eq k' k) eqn:Hk; simpl.
  - rewrite (key_eq_true_l k' k q Hk). by destruct (key_eq k q).
  - rewrite IH. destruct (key_eq k' q) eqn:Hq; [|done].
    rewrite (key_eq_true_l k' q k Hq), key_eq_sym in Hk. by rewrite Hk.
Qed.

Lemma dict_setitem_get {V : Type} (d d' : list (json * V)) (k q : json) (v : V) :
  dict_setitem d k v = Ok d' →
  dict_get d' q = if key_eq k q then Some v else dict_get d q.
Proof.
  unfold dict_setitem. intros H.
  assert (d' = dict_put d k v) as -> by (destruct k; by simplify_eq).
  apply dict_get_put.
Qed.

(** ** The VLAN catalog *)

Lemma vlan_dict_app (l1 l2 : list json) (acc : list (json * gmap string json)) :
  vlan_dict (l1 ++ l2) acc = (acc1 ← vlan_dict l1 acc; vlan_dict l2 acc1).
Proof.
  revert acc. induction l1 as [|x l1 IH]; intros acc; [done|].
  simpl. unbind.
  destruct (getitem x "vid") as [vid|]; [|done].
  destruct (getitem x "name") as [name|]; [|done].
  destruct (dict_setitem acc vid {[ "name" := name ]}) as [acc1|]; [|done].
  specialize (IH acc1). unbind. by rewrite IH.
Qed.

Lemma vlan_dict_no_key (l : list json) (acc d : list (json * gmap string json))
    (q : json) :
  vlan_dict l acc = Ok d → no_key "vid" l q → dict_get d q = dict_get acc q.
Proof.
  revert acc. induction l as [|x l IH]; intros acc; simpl.
  { by intros [= <-]. }
  unbind. intros H Hno.
  destruct (getitem x "vid") as [vid|] eqn:Hvid; [|done].
  destruct (getitem x "name") as [name|]; [|done].
  destruct (dict_setitem acc vid {[ "name" := name ]}) as [acc1|] eqn:Hset;
    [|done].
  rewrite (IH acc1 H).
  - rewrite (dict_setitem_get _ _ _ q _ Hset).
    by rewrite (Hno x vid (list_elem_of_here _ _) Hvid).
  - intros y k Hy. apply Hno. by apply list_elem_of_further.
Qed.

(** X10: the VLAN export issues exactly one read, of
    [.../ipam/vlans/?limit=1000], whether it succeeds or not.  When it
    succeeds on the records [l], the catalog gives, under a VLAN id, the name
    of the last record of [l] with that id, and nothing under an id that no
    record has. *)
Theorem get_vlans_catalog :
  ∀ (w : World) (nb : Netbox.t) (log log' : list string)
    (r : result (gmap string section_value)),
    get_vlans w nb log = (r, log') →
    log' = (log ++ [vlans_url nb])%list
    ∧ ∀ v : gmap string section_value,
        r = Ok v →
        ∃ (l : list json) (d : list (json * gmap string json)),
          (results ← http_get_json w (vlans_url nb) (Netbox.headers nb)
                     ≫= (λ body, getitem body "results");
           iter results) = Ok l
          ∧ v = {[ "vlans" := Mapping d ]}
          ∧ (∀ q : json, no_key "vid" l q → dict_get d q = None)
          ∧ (∀ (before after : list json) (x vid name q : json),
               l = (before ++ x :: after)%list →
               getitem x "vid" = Ok vid → key_eq vid q = true →
               getitem x "name" = Ok name →
               no_key "vid" after q →
               dict_get d q = Some {[ "name" := name ]}).
Proof.
  intros w nb log log' r. unfold get_vlans.
  unfold mbind at 1, Py_bind. rewrite filter_vlans. unbind.
  destruct (http_get_json w (vlans_url nb) (Netbox.headers nb)) as [body|];
    [|intros [= <- <-]; split; [done|intros v [=]]].
  destruct (getitem body "results") as [results|];
    [|intros [= <- <-]; split; [done|intros v [=]]].
  destruct (iter results) as [l|];
    [|intros [= <- <-]; split; [done|intros v [=]]].
  destruct (vlan_dict l []) as [d|] eqn:Hd;
    [|intros [= <- <-]; split; [done|intros v [=]]].
  intros [= <- <-]. split; [done|]. intros v [= <-].
  exists l, d. repeat apply conj; try done.
  - intros q Hno. by rewrite (vlan_dict_no_key l [] d q Hd Hno).
  - intros before after x vid name q -> Hvid Hq Hname Hafter.
    rewrite vlan_dict_app in Hd. unbind.
    destruct (vlan_dict before []) as [acc1|]; [|done].
    simpl in Hd. unbind. rewrite Hvid, Hname in Hd.
    destruct (dict_setitem acc1 vid {[ "name" := name ]}) as [acc2|] eqn:Hset;
      [|done].
    rewrite (vlan_dict_no_key after acc2 d q Hd Hafter).
    by rewrite (dict_setitem_get _ _ _ q _ Hset), Hq.
Qed.

Lemma get_vlans_catalog_sw1 :
  ["http://nb/api/ipam/vlans/?limit=1000"] = ([] ++ [vlans_url nb0])%list
  ∧ ∀ v : gmap string section_value,
      Ok {[ "vlans" :=
              Mapping [(JInt 10, {[ "name" := JStr "users" ]});
                       (JInt 20, {[ "name" := JStr "voice" ]})] ]}
      = Ok v →
      ∃ (l : list json) (d : list (json * gmap string json)),
        (results ← http_get_json full_world (vlans_url nb0) (Netbox.headers nb0)
                   ≫= (λ body, getitem body "results");
         iter results) = Ok l
        ∧ v = {[ "vlans" := Mapping d ]}
        ∧ (∀ q : json, no_key "vid" l q → dict_get d q = None)
        ∧ (∀ (before after : list json) (x vid name q : json),
             l = (before ++ x :: after)%list →
             getitem x "vid" = Ok vid → key_eq vid q = true →
             getitem x "name" = Ok name →
             no_key "vid" after q →
             dict_get d q = Some {[ "name" := name ]}).
Proof.
  apply (get_vlans_catalog full_world nb0 []
           ["http://nb/api/ipam/vlans/?limit=1000"]).
  vm_compute. reflexivity.
Defined.

(** X11: the VLAN catalog is all or nothing: when the records before [x]
    are taken in and [x] itself has no [vid], no [name], or a [vid] that
    cannot be a dictionary key, the catalog raises that exception, whatever
    follows [x]. *)
Theorem vlan_dict_aborts :
  ∀ (before after : list json) (x : json)
    (acc acc1 : list (json * gmap string json)) (e : exn),
    vlan_dict before acc = Ok acc1 →
    (vid ← getitem x "vid";
     name ← getitem x "name";
     dict_setitem acc1 vid {[ "name" := name ]}) = Raise e →
    vlan_dict (before ++ x :: after) acc = Raise e.
Proof.
  intros before after x acc acc1 e Hbefore Hx.
  rewrite vlan_dict_app. unfold mbind at 1, result_bind. rewrite Hbefore.
  simpl. revert Hx. unbind.
  destruct (getitem x "vid") as [vid|]; [|done].
  destruct (getitem x "name") as [name|]; [|done].
  by destruct (dict_setitem acc1 vid {[ "name" := name ]}); [discriminate|].
Qed.

Lemma vlan_dict_aborts_unnamed :
  vlan_dict ([JObj {[ "vid" := JInt 10; "name" := JStr "users" ]}]
               ++ JObj {[ "vid" := JInt 20 ]} :: []) []
  = Raise (KeyError "name").
Proof.
  apply (vlan_dict_aborts
           [JObj {[ "vid" := JInt 10; "name" := JStr "users" ]}] []
           (JObj {[ "vid" := JInt 20 ]}) []
           [(JInt 10, {[ "name" := JStr "users" ]})]); reflexivity.
Defined.

(** ** The port map, continued *)

(** What normalisation returns does not depend on the reads made before. *)
Lemma load_from_netbox_any_log (w : World) (nb : Netbox.t) (o : json)
    (log log' : list string) (r : result Port.t) :
  Port.load_from_netbox w nb o log = (r, log') →
  (Port.load_from_netbox w nb o []).1 = r.
Proof.
  destruct (reads_under_load_from_netbox w nb o) as (r0 & extra & H & _).
  rewrite (H log), (H []). by intros [= <- _].
Qed.

Lemma port_dict_no_key (w : World) (nb : Netbox.t) (l : list json)
    (acc d : list (json * gmap string json)) (log log' : list string)
    (q : json) :
  port_dict w nb l acc log = (Ok d, log') → no_key "name" l q →
  dict_get d q = dict_get acc q.
Proof.
  revert acc log. induction l as [|x l IH]; intros acc log; simpl.
  { by intros [= <- _]. }
  unbind. intros H Hno.
  destruct (getitem x "name") as [name|] eqn:Hname; [|done].
  destruct (Port.load_from_netbox w nb x log) as [[p|] log1]; [|done].
  destruct (dict_setitem acc name (Port.to_dict p)) as [acc1|] eqn:Hset;
    [|done].
  rewrite (IH acc1 log1 H).
  - rewrite (dict_setitem_get _ _ _ q _ Hset).
    by rewrite (Hno x name (list_elem_of_here _ _) Hname).
  - intros y k Hy. apply Hno. by apply list_elem_of_further.
Qed.

(** X12: when the export of a device's ports succeeds on the records [l],
    the map gives, under an interface name, the serialised normalisation of
    the last record of [l] with that name, and nothing under a name that no
    record has. *)
Theorem get_ports_map :
  ∀ (w : World) (nb : Netbox.t) (device_id : json) (log log' : list string)
    (v : gmap string section_value),
    get_ports w nb device_id log = (Ok v, log') →
    ∃ (l : list json) (d : list (json * gmap string json)),
      (results ← http_get_json w (ports_url w nb device_id) (Netbox.headers nb)
                 ≫= (λ body, getitem body "results");
       iter results) = Ok l
      ∧ v = {[ "ports" := Mapping d ]}
      ∧ (∀ q : json, no_key "name" l q → dict_get d q = None)
      ∧ (∀ (before after : list json) (x name q : json),
           l = (before ++ x :: after)%list →
           getitem x "name" = Ok name → key_eq name q = true →
           no_key "name" after q →
           ∃ p : Port.t,
             (Port.load_from_netbox w nb x []).1 = Ok p
             ∧ dict_get d q = Some (Port.to_dict p)).
Proof.
  intros w nb device_id log log' v. unfold get_ports.
  unfold mbind at 1, Py_bind. rewrite filter_interfaces. unbind.
  destruct (http_get_json w (ports_url w nb device_id) (Netbox.headers nb))
    as [body|]; [|done].
  destruct (getitem body "results") as [results|]; [|done].
  destruct (iter results) as [l|]; [|done].
  destruct (port_dict w nb l [] (log ++ [ports_url w nb device_id])%list)
    as [[d|] log1] eqn:Hd; [|done].
  intros [= <- <-]. exists l, d. repeat apply conj; try done.
  - intros q Hno. by rewrite (port_dict_no_key w nb l [] d _ _ q Hd Hno).
  - intros before after x name q -> Hname Hq Hafter.
    rewrite port_dict_app in Hd. unbind.
    destruct (port_dict w nb before [] _) as [[acc1|] log2]; [|done].
    simpl in Hd. unbind. rewrite Hname in Hd.
    destruct (Port.load_from_netbox w nb x log2) as [[p|] log3] eqn:Hload;
      [|done].
    destruct (dict_setitem acc1 name (Port.to_dict p)) as [acc2|] eqn:Hset;
      [|done].
    exists p. split; [by apply load_from_netbox_any_log in Hload|].
    rewrite (port_dict_no_key w nb after acc2 d _ _ q Hd Hafter).
    by rewrite (dict_setitem_get _ _ _ q _ Hset), Hq.
Qed.

Lemma get_ports_map_sw1 :
  ∃ (l : list json) (d : list (json * gmap string json)),
    (results ← http_get_json ports_world (ports_url ports_world nb0 (JInt 42))
                 (Netbox.headers nb0)
               ≫= (λ body, getitem body "results");
     iter results) = Ok l
    ∧ ({[ "ports" :=
            Mapping
              [(JStr "Eth7", {[ "clean" := JBool true ]});
               (JStr "Eth5", Port.to_dict member_port_normalised);
               (JStr "Eth1",
                list_to_map
                  [("shutdown", JBool false); ("type", JStr "trunk");
                   ("descr", JStr "uplink"); ("mtu", JInt 9000);
                   ("untagged", JInt 10);
                   ("tagged", JList [JInt 20; JInt 30])])] ]}
       : gmap string section_value)
      = {[ "ports" := Mapping d ]}
    ∧ (∀ q : json, no_key "name" l q → dict_get d q = None)
    ∧ (∀ (before after : list json) (x name q : json),
         l = (before ++ x :: after)%list →
         getitem x "name" = Ok name → key_eq name q = true →
         no_key "name" after q →
         ∃ p : Port.t,
           (Port.load_from_netbox ports_world nb0 x []).1 = Ok p
           ∧ dict_get d q = Some (Port.to_dict p)).
Proof.
  apply (get_ports_map ports_world nb0 (JInt 42) []
           ["http://nb/api/dcim/interfaces/?device_id=42&limit=1000";
            "http://nb/api/dcim/interfaces/7"]).
  vm_compute. reflexivity.
Defined.

(** ** Fields of the record *)

(** X13: normalisation looks at ten fields of the record and at nothing
    else: setting or removing any other field, such as the interface's name
    or label, changes neither the port returned, nor the exception raised,
    nor the reads made. *)
Theorem load_from_netbox_ignores_other_fields :
  ∀ (w : World) (nb : Netbox.t) (m : gmap string json) (k : string) (x : json)
    (log : list string),
    k ∉ consumed →
    Port.load_from_netbox w nb (JObj (<[k := x]> m)) log
    = Port.load_from_netbox w nb (JObj m) log
    ∧ Port.load_from_netbox w nb (JObj (delete k m)) log
      = Port.load_from_netbox w nb (JObj m) log.
Proof.
  intros w nb m k x log Hk.
  assert (∀ k', k' ∈ consumed → k ≠ k') as Hne by (intros k' Hk' ->; done).
  unfold Port.load_from_netbox, Port.uninteresting, Port.description,
    Port.__load_mode_and_vlans, Port.set_mode, Port.set_vlans.
  split.
  - by rewrite !(getitem_insert_ne m _ k x)
      by (apply Hne; unfold consumed; set_solver).
  - by rewrite !(getitem_delete_ne m _ k)
      by (apply Hne; unfold consumed; set_solver).
Qed.

Lemma load_from_netbox_ignores_other_fields_label :
  Port.load_from_netbox (serving []) nb0
    (JObj (<["label" := JStr "rack 4"]> access_fields)) []
  = Port.load_from_netbox (serving []) nb0 (JObj access_fields) []
  ∧ Port.load_from_netbox (serving []) nb0
      (JObj (delete "label" access_fields)) []
    = Port.load_from_netbox (serving []) nb0 (JObj access_fields) [].
Proof.
  apply (load_from_netbox_ignores_other_fields (serving []) nb0 access_fields
           "label" (JStr "rack 4") []).
  compute_done.
Defined.

(** X14: on a port that is not clean, the MTU of the record is copied
    unchanged when it is true in Python's sense and left unset otherwise, so
    an MTU of null or 0 does not appear in the output; the MTU of a LAG
    parent is never used. *)
Theorem mtu_copied :
  ∀ (w : World) (nb : Netbox.t) (o : json) (log log' : list string)
    (p : Port.t),
    Port.load_from_netbox w nb o log = (Ok p, log') →
    Port.clean p = false →
    ∃ m : json,
      getitem o "mtu" = Ok m
      ∧ Port.mtu p = (if truthy m then m else JNull)
      ∧ Port.to_dict p !! "mtu" = present m.
Proof.
  intros w nb o log log' p H Hc.
  destruct (to_dict_fields p Hc) as (_ & _ & Hmtu & _). rewrite Hmtu.
  destruct (load_from_netbox_Ok _ _ _ _ _ _ H)
    as [(_ & -> & _)|(_ & d & e & l & q1 & q2 & m & _ & _ & _ & Hq1 & Hq2 & Hm & ->)];
    [done|].
  exists m. split; [done|].
  assert (Port.mtu q2 = JNull) as Hq2m.
  { apply load_mode_and_vlans_frame in Hq2 as (_ & _ & _ & -> & _).
    destruct (truthy l).
    - apply load_lag_Ok in Hq1 as (? & ? & ? & ? & _ & _ & _ & _ & Hq1).
      by apply load_mode_and_vlans_frame in Hq1 as (_ & _ & _ & -> & _).
    - by simplify_eq. }
  unfold present. destruct (truthy m) eqn:Htm; simpl.
  - by rewrite Htm.
  - by rewrite Hq2m.
Qed.

Lemma mtu_copied_zero :
  ∃ m : json,
    getitem member_of_zero "mtu" = Ok m
    ∧ Port.mtu member_of_zero_normalised = (if truthy m then m else JNull)
    ∧ Port.to_dict member_of_zero_normalised !! "mtu" = present m.
Proof.
  apply (mtu_copied lag_world nb0 member_of_zero []
           ["http://nb/api/dcim/interfaces/7"] member_of_zero_normalised);
    [vm_compute; reflexivity | reflexivity].
Defined.


